(** * Office automation server: build script and feature smoke test

    A shallow embedding of [office-server/test_all_features.py] and
    [office-server/build.py].  Both files are straight-line scripts whose
    whole behaviour is the sequence of effects they perform (lines
    printed, HTTP requests sent, sleeps, subprocesses started, folders
    removed) and the way exceptions travel through them.  The scripts
    are therefore written in a small monad that threads the trace of
    effects performed so far and an outcome that is either a value or a
    raised exception; everything outside the script (the HTTP server,
    the network, the user's Ctrl-C, the file system, the subprocesses)
    is an oracle consulted with the trace so far.

    Conventions of the embedding:
    - an event is recorded when the script makes the call, before the
      world says how the call ends, so a call that raises is still in
      the trace;
    - for the scripts as wholes [print] never fails, and exceptions
      from outside arrive where the script waits on the world: in a
      call into [requests], in [.json()], in [time.sleep], in a
      subprocess, an import or a file operation;
    - [test_endpoint], which prints inside its own [try] and inside its
      own handler, is also embedded against a console that can refuse
      a line and a user who can press Ctrl-C at any moment (module
      [Console]); what is said of the function by itself is said
      there;
    - a string is a sequence of characters, [String.length] standing
      for [len];
    - [repr] of floats and containers, and the rounding of a float to
      one decimal, are the interpreter's and are taken as parameters. *)

From Stdlib Require Import List String Ascii ZArith QArith Bool Arith Lia.
From Stdlib Require Import DecimalString.
Import ListNotations.

Set Warnings "-register-all".

Local Open Scope string_scope.
Local Open Scope list_scope.
Local Open Scope Z_scope.

(** ** Python values and exceptions *)

Module Py.

(** A Python float: a finite double is represented by the rational it
    denotes; the two infinities and NaN are kept apart. *)
Inductive pyfloat : Type :=
| FNaN
| FInf (negative : bool)
| FNum (q : Q).

(** The values [json] decoding produces, which are also the values the
    script builds for request bodies.  A dict keeps its items in
    insertion order; keys are strings. *)
Inductive pyval : Type :=
| PNone
| PBool (b : bool)
| PInt (z : Z)
| PFloat (f : pyfloat)
| PStr (s : string)
| PList (items : list pyval)
| PDict (items : list (string * pyval)).

(** The exceptions the scripts can meet.  [KeyboardInterrupt] and
    [SystemExit] derive from [BaseException] only; [ImportError] and
    every [Exception cls msg] derive from [Exception]. *)
Inductive exn : Type :=
| KeyboardInterrupt
| SystemExit (code : Z)
| ImportError (msg : string)
| Exception (cls : string) (msg : string).

(** [isinstance(e, Exception)] *)
Definition is_Exception (e : exn) : bool :=
  match e with
  | KeyboardInterrupt | SystemExit _ => false
  | ImportError _ | Exception _ _ => true
  end.

(** [isinstance(e, KeyboardInterrupt)] *)
Definition is_KeyboardInterrupt (e : exn) : bool :=
  match e with
  | KeyboardInterrupt => true
  | _ => false
  end.

(** [isinstance(e, ImportError)] *)
Definition is_ImportError (e : exn) : bool :=
  match e with
  | ImportError _ => true
  | _ => false
  end.

Definition decimal (z : Z) : string := NilZero.string_of_int (Z.to_int z).

(** [str(e)] *)
Definition exn_str (e : exn) : string :=
  match e with
  | KeyboardInterrupt => ""
  | SystemExit code => decimal code
  | ImportError msg => msg
  | Exception _ msg => msg
  end.

Definition nl : string := String (ascii_of_nat 10) EmptyString.

(** [s * n] on a string *)
Fixpoint str_mul (s : string) (n : nat) : string :=
  match n with
  | O => ""
  | S n' => s ++ str_mul s n'
  end.

(** Lookup of a key in the items of a dict. *)
Fixpoint assoc {A : Type} (k : string) (items : list (string * A)) : option A :=
  match items with
  | [] => None
  | (k', v) :: rest => if String.eqb k k' then Some v else assoc k rest
  end.

(** [type(v).__name__] *)
Definition type_name (v : pyval) : string :=
  match v with
  | PNone => "NoneType"
  | PBool _ => "bool"
  | PInt _ => "int"
  | PFloat _ => "float"
  | PStr _ => "str"
  | PList _ => "list"
  | PDict _ => "dict"
  end.

(** [bool(v)] *)
Definition truthy (v : pyval) : bool :=
  match v with
  | PNone => false
  | PBool b => b
  | PInt z => negb (z =? 0)
  | PFloat FNaN => true
  | PFloat (FInf _) => true
  | PFloat (FNum q) => negb (Qeq_bool q 0)
  | PStr s => negb (String.eqb s "")
  | PList items => match items with [] => false | _ => true end
  | PDict items => match items with [] => false | _ => true end
  end.

(** The number a bool, int or float denotes ([bool] is a subclass of
    [int]: [True == 1]). *)
Definition as_number (v : pyval) : option pyfloat :=
  match v with
  | PBool b => Some (FNum (inject_Z (Z.b2z b)))
  | PInt z => Some (FNum (inject_Z z))
  | PFloat f => Some f
  | _ => None
  end.

Definition float_eq (x y : pyfloat) : bool :=
  match x, y with
  | FNum p, FNum q => Qeq_bool p q
  | FInf s, FInf t => Bool.eqb s t
  | _, _ => false
  end.

(** [a == b] *)
Fixpoint py_eq (a b : pyval) {struct a} : bool :=
  match a, b with
  | PNone, PNone => true
  | PStr s, PStr t => String.eqb s t
  | PList l, PList m =>
      (fix all2 (l m : list pyval) {struct l} : bool :=
         match l, m with
         | [], [] => true
         | x :: l', y :: m' => py_eq x y && all2 l' m'
         | _, _ => false
         end) l m
  | PDict d, PDict e =>
      Nat.eqb (List.length d) (List.length e) &&
      (fix all (d : list (string * pyval)) {struct d} : bool :=
         match d with
         | [] => true
         | (k, v) :: d' =>
             match assoc k e with
             | Some w => py_eq v w
             | None => false
             end && all d'
         end) d
  | _, _ =>
      match as_number a, as_number b with
      | Some x, Some y => float_eq x y
      | _, _ => false
      end
  end.

Section Formatting.

(** [repr] of a float, a list or a dict is the interpreter's business
    and is taken as given. *)
Variable py_repr : pyval -> string.

(** [str(v)], which is what an f-string field [{v}] inserts. *)
Definition py_str (v : pyval) : string :=
  match v with
  | PNone => "None"
  | PBool true => "True"
  | PBool false => "False"
  | PInt z => decimal z
  | PStr s => s
  | PFloat _ | PList _ | PDict _ => py_repr v
  end.

End Formatting.

End Py.

(** ** The effect monad shared by both scripts *)

Module Eff.

Import Py.

(** A computation returns a value or raises. *)
Inductive outcome (A : Type) : Type :=
| Ok (a : A)
| Raise (e : exn).
Arguments Ok {A} a.
Arguments Raise {A} e.

Section Monad.

(** [W] is the outside world, [E] the type of the effects recorded. *)
Context {W E : Type}.

Definition M (A : Type) : Type := W -> list E -> outcome A * list E.

Definition ret {A} (a : A) : M A := fun _ t => (Ok a, t).

Definition bind {A B} (m : M A) (k : A -> M B) : M B :=
  fun w t =>
    match m w t with
    | (Ok a, t') => k a w t'
    | (Raise e, t') => (Raise e, t')
    end.

Definition raise {A} (e : exn) : M A := fun _ t => (Raise e, t).

(** [try: body / except <catches> as e: handler e] *)
Definition try_except {A} (body : M A) (catches : exn -> bool)
    (handler : exn -> M A) : M A :=
  fun w t =>
    match body w t with
    | (Ok a, t') => (Ok a, t')
    | (Raise e, t') => if catches e then handler e w t' else (Raise e, t')
    end.

(** Record an effect that cannot fail. *)
Definition emit (ev : E) : M unit := fun _ t => (Ok tt, t ++ [ev]).

(** Record an effect and let the world decide how it ends. *)
Definition perform {A} (ev : E) (answer : W -> list E -> outcome A) : M A :=
  fun w t => (answer w t, t ++ [ev]).

(** Ask the world something without changing anything. *)
Definition observe {A} (answer : W -> list E -> outcome A) : M A :=
  fun w t => (answer w t, t).

(** [for x in xs: body x] *)
Fixpoint for_each {A} (xs : list A) (body : A -> M unit) : M unit :=
  match xs with
  | [] => ret tt
  | x :: xs' => bind (body x) (fun _ => for_each xs' body)
  end.

End Monad.

Arguments M : clear implicits.

Declare Scope eff_scope.
Delimit Scope eff_scope with eff.
Notation "x <- m ;; k" := (bind m (fun x => k))
  (at level 61, m at next level, right associativity) : eff_scope.
Notation "m ;; k" := (bind m (fun _ => k))
  (at level 61, right associativity) : eff_scope.

End Eff.

(** ** [office-server/test_all_features.py] *)

Module TestAllFeatures.

Import Py Eff.
Local Open Scope eff_scope.
Local Open Scope string_scope.

(** The two calls into [requests] the script makes, with their
    arguments. *)
Inductive request : Type :=
| GET (url : string) (timeout : Z)
| POST (url : string) (json : pyval) (timeout : Z).

(** The effects of the script, in the order they happen: a line
    printed, a call into [requests], a call of [time.sleep]. *)
Inductive event : Type :=
| Print (line : string)
| Request (r : request)
| Sleep (seconds : Z).

(** A response object is used for its [.json()] only, which yields the
    decoded body or raises. *)
Definition response : Type := outcome pyval.

(** How a call into [requests] ends: it raises (connection refused,
    timeout, Ctrl-C while waiting) or hands back a response. *)
Inductive reply : Type :=
| Raised (e : exn)
| Responded (r : response).

(** Everything outside the script: what the far end makes of a request
    and whether a sleep is cut short, both as functions of what has
    happened so far. *)
Record world : Type := {
  server : list event -> request -> reply;
  interrupt : list event -> Z -> option exn
}.

Definition BASE_URL : string := "http://127.0.0.1:8765".

Definition print (line : string) : M world event unit := emit (Print line).

Definition call (r : request) : M world event response :=
  perform (Request r)
    (fun w t => match server w t r with
                | Raised e => Raise e
                | Responded r => Ok r
                end).

(** [requests.get(url, timeout=timeout)] *)
Definition requests_get (url : string) (timeout : Z) : M world event response :=
  call (GET url timeout).

(** [requests.post(url, json=json, timeout=timeout)] *)
Definition requests_post (url : string) (json : pyval) (timeout : Z)
  : M world event response :=
  call (POST url json timeout).

(** [response.json()] *)
Definition response_json (r : response) : M world event pyval :=
  observe (fun _ _ => r).

(** [time.sleep(seconds)] *)
Definition time_sleep (seconds : Z) : M world event unit :=
  perform (Sleep seconds)
    (fun w t => match interrupt w t seconds with
                | Some e => Raise e
                | None => Ok tt
                end).

(** [obj.get(key, default)]: only a dict has the method. *)
Definition get (obj : pyval) (key : string) (default : pyval)
  : M world event pyval :=
  match obj with
  | PDict items =>
      ret (match assoc key items with Some v => v | None => default end)
  | _ =>
      raise (Exception "AttributeError"
               ("'" ++ type_name obj ++ "' object has no attribute 'get'"))
  end.

(** [obj[key]] for a string key: a [KeyError] on a dict without the
    key, a [TypeError] on anything that is not a dict. *)
Definition subscript (obj : pyval) (key : string) : M world event pyval :=
  match obj with
  | PDict items =>
      match assoc key items with
      | Some v => ret v
      | None => raise (Exception "KeyError" ("'" ++ key ++ "'"))
      end
  | PList _ =>
      raise (Exception "TypeError"
               "list indices must be integers or slices, not str")
  | PStr _ =>
      raise (Exception "TypeError" "string indices must be integers, not 'str'")
  | _ =>
      raise (Exception "TypeError"
               ("'" ++ type_name obj ++ "' object is not subscriptable"))
  end.

(** [len(obj)] *)
Definition len (obj : pyval) : M world event Z :=
  match obj with
  | PStr s => ret (Z.of_nat (String.length s))
  | PList items => ret (Z.of_nat (List.length items))
  | PDict items => ret (Z.of_nat (List.length items))
  | _ =>
      raise (Exception "TypeError"
               ("object of type '" ++ type_name obj ++ "' has no len()"))
  end.

(** [a and b]: [b] is evaluated only when [a] is truthy. *)
Definition py_and (a : pyval) (b : M world event pyval) : M world event pyval :=
  if truthy a then b else ret a.

(** [not a] *)
Definition py_not (a : pyval) : pyval := PBool (negb (truthy a)).

Section Script.

Variable py_repr : pyval -> string.

(** [def test_endpoint(method, endpoint, data=None, expected_success=True)] *)
Definition test_endpoint (method endpoint : string)
    (data expected_success : pyval) : M world event pyval :=
  let url := BASE_URL ++ endpoint in
  try_except
    (response <- (if String.eqb method "GET"
                  then requests_get url 10
                  else requests_post url data 10) ;;
     result <- response_json response ;;
     success <- get result "success" PNone ;;
     let status := if py_eq success expected_success then "OK" else "FAIL" in
     print ("  [" ++ status ++ "] " ++ method ++ " " ++ endpoint) ;;
     success <- get result "success" PNone ;;
     cond <- py_and (py_not success) (ret expected_success) ;;
     (if truthy cond
      then message <- get result "message" (PStr "Unknown") ;;
           error <- get result "error" message ;;
           print ("       Error: " ++ py_str py_repr error)
      else ret tt) ;;
     ret result)
    is_Exception
    (fun e =>
       print ("  [ERROR] " ++ method ++ " " ++ endpoint ++ ": " ++ exn_str e) ;;
       ret (PDict [("success", PBool false); ("error", PStr (exn_str e))])).

Definition test_health : M world event pyval :=
  print (nl ++ "=== Health Check ===") ;;
  test_endpoint "GET" "/health" PNone (PBool true).

Definition test_word_features : M world event unit :=
  print (nl ++ str_mul "=" 50%nat) ;;
  print ("=== Microsoft Word Tests ===") ;;
  print (str_mul "=" 50%nat) ;;
  print (nl ++ "--- Basic Operations ---") ;;
  test_endpoint "POST" "/word/launch" PNone (PBool true) ;;
  time_sleep 1 ;;
  test_endpoint "POST" "/word/create" PNone (PBool true) ;;
  print (nl ++ "--- Write and Read ---") ;;
  test_endpoint "POST" "/word/write"
    (PDict [("text", PStr ("Hello World! This is a test document." ++ nl ++ nl))])
    (PBool true) ;;
  test_endpoint "GET" "/word/read" PNone (PBool true) ;;
  print (nl ++ "--- Font Settings ---") ;;
  test_endpoint "POST" "/word/write"
    (PDict [("text", PStr ("Bold and Red Text" ++ nl))])
    (PBool true) ;;
  test_endpoint "POST" "/word/set_font"
    (PDict [("font_name", PStr "Arial");
            ("font_size", PInt 16);
            ("bold", PBool true);
            ("color", PStr "#FF0000")])
    (PBool true) ;;
  print (nl ++ "--- Paragraph Formatting ---") ;;
  test_endpoint "POST" "/word/write"
    (PDict [("text", PStr (nl ++ "Centered paragraph with double spacing." ++ nl))])
    (PBool true) ;;
  test_endpoint "POST" "/word/set_paragraph"
    (PDict [("alignment", PStr "center");
            ("line_spacing", PFloat (FNum (inject_Z 2)))])
    (PBool true) ;;
  print (nl ++ "--- Hyperlink ---") ;;
  test_endpoint "POST" "/word/add_hyperlink"
    (PDict [("url", PStr "https://www.google.com");
            ("display_text", PStr "Visit Google");
            ("tooltip", PStr "Click to visit Google")])
    (PBool true) ;;
  print (nl ++ "--- Insert Break ---") ;;
  test_endpoint "POST" "/word/insert_break"
    (PDict [("type", PStr "line")])
    (PBool true) ;;
  test_endpoint "POST" "/word/write"
    (PDict [("text", PStr (nl ++ "After line break." ++ nl))])
    (PBool true) ;;
  print (nl ++ "--- Table ---") ;;
  test_endpoint "POST" "/word/add_table"
    (PDict [("rows", PInt 3);
            ("cols", PInt 3);
            ("values", PList [PList [PStr "Name"; PStr "Age"; PStr "City"];
                              PList [PStr "Alice"; PStr "25"; PStr "Seoul"];
                              PList [PStr "Bob"; PStr "30"; PStr "Busan"]])])
    (PBool true) ;;
  print (nl ++ "--- Find and Replace ---") ;;
  test_endpoint "POST" "/word/find_replace"
    (PDict [("find", PStr "Hello");
            ("replace", PStr "Hi");
            ("replace_all", PBool true)])
    (PBool true) ;;
  print (nl ++ "--- Style ---") ;;
  test_endpoint "POST" "/word/write"
    (PDict [("text", PStr (nl ++ nl ++ "This should be a heading" ++ nl))])
    (PBool true) ;;
  test_endpoint "POST" "/word/set_style"
    (PDict [("style", PStr "Heading 1")])
    (PBool true) ;;
  print (nl ++ "--- Selection ---") ;;
  test_endpoint "POST" "/word/select_all" PNone (PBool true) ;;
  test_endpoint "GET" "/word/get_selection" PNone (PBool true) ;;
  print (nl ++ "--- Screenshot ---") ;;
  result <- test_endpoint "GET" "/word/screenshot" PNone (PBool true) ;;
  success <- get result "success" PNone ;;
  cond <- py_and success (get result "image" PNone) ;;
  (if truthy cond
   then image <- subscript result "image" ;;
        n <- len image ;;
        print ("       Screenshot captured: " ++ decimal n ++ " bytes (base64)")
   else ret tt) ;;
  print (nl ++ "--- Close ---") ;;
  test_endpoint "POST" "/word/close"
    (PDict [("save", PBool false)])
    (PBool true) ;;
  print (nl ++ "[Word Tests Complete]").

Definition test_excel_features : M world event unit :=
  print (nl ++ str_mul "=" 50%nat) ;;
  print ("=== Microsoft Excel Tests ===") ;;
  print (str_mul "=" 50%nat) ;;
  print (nl ++ "--- Basic Operations ---") ;;
  test_endpoint "POST" "/excel/launch" PNone (PBool true) ;;
  time_sleep 1 ;;
  test_endpoint "POST" "/excel/create" PNone (PBool true) ;;
  print (nl ++ "--- Write/Read Cell ---") ;;
  test_endpoint "POST" "/excel/write_cell"
    (PDict [("cell", PStr "A1"); ("value", PStr "Product")])
    (PBool true) ;;
  test_endpoint "POST" "/excel/write_cell"
    (PDict [("cell", PStr "B1"); ("value", PStr "Price")])
    (PBool true) ;;
  test_endpoint "POST" "/excel/write_cell"
    (PDict [("cell", PStr "C1"); ("value", PStr "Quantity")])
    (PBool true) ;;
  test_endpoint "POST" "/excel/read_cell"
    (PDict [("cell", PStr "A1")])
    (PBool true) ;;
  print (nl ++ "--- Write/Read Range ---") ;;
  test_endpoint "POST" "/excel/write_range"
    (PDict [("start_cell", PStr "A2");
            ("values", PList [PList [PStr "Apple"; PInt 100; PInt 10];
                              PList [PStr "Banana"; PInt 50; PInt 20];
                              PList [PStr "Orange"; PInt 75; PInt 15]])])
    (PBool true) ;;
  result <- test_endpoint "POST" "/excel/read_range"
    (PDict [("range", PStr "A1:C4")])
    (PBool true) ;;
  success <- get result "success" PNone ;;
  (if truthy success
   then values <- get result "values" PNone ;;
        print ("       Values: " ++ py_str py_repr values)
   else ret tt) ;;
  print (nl ++ "--- Formula ---") ;;
  test_endpoint "POST" "/excel/write_cell"
    (PDict [("cell", PStr "D1"); ("value", PStr "Total")])
    (PBool true) ;;
  test_endpoint "POST" "/excel/set_formula"
    (PDict [("cell", PStr "D2"); ("formula", PStr "=B2*C2")])
    (PBool true) ;;
  test_endpoint "POST" "/excel/set_formula"
    (PDict [("cell", PStr "D3"); ("formula", PStr "=B3*C3")])
    (PBool true) ;;
  test_endpoint "POST" "/excel/set_formula"
    (PDict [("cell", PStr "D4"); ("formula", PStr "=B4*C4")])
    (PBool true) ;;
  test_endpoint "POST" "/excel/set_formula"
    (PDict [("cell", PStr "D5"); ("formula", PStr "=SUM(D2:D4)")])
    (PBool true) ;;
  test_endpoint "POST" "/excel/read_cell"
    (PDict [("cell", PStr "D5")])
    (PBool true) ;;
  print (nl ++ "--- Font Settings ---") ;;
  test_endpoint "POST" "/excel/set_font"
    (PDict [("range", PStr "A1:D1");
            ("font_name", PStr "Arial");
            ("font_size", PInt 14);
            ("bold", PBool true);
            ("color", PStr "#0000FF")])
    (PBool true) ;;
  print (nl ++ "--- Alignment ---") ;;
  test_endpoint "POST" "/excel/set_alignment"
    (PDict [("range", PStr "A1:D1");
            ("horizontal", PStr "center");
            ("vertical", PStr "center")])
    (PBool true) ;;
  print (nl ++ "--- Column Width ---") ;;
  test_endpoint "POST" "/excel/set_column_width"
    (PDict [("column", PStr "A"); ("auto_fit", PBool true)])
    (PBool true) ;;
  test_endpoint "POST" "/excel/set_column_width"
    (PDict [("column", PStr "B"); ("width", PInt 15)])
    (PBool true) ;;
  print (nl ++ "--- Row Height ---") ;;
  test_endpoint "POST" "/excel/set_row_height"
    (PDict [("row", PInt 1); ("height", PInt 25)])
    (PBool true) ;;
  print (nl ++ "--- Fill Color ---") ;;
  test_endpoint "POST" "/excel/set_fill"
    (PDict [("range", PStr "A1:D1"); ("color", PStr "#FFFF00")])
    (PBool true) ;;
  print (nl ++ "--- Border ---") ;;
  test_endpoint "POST" "/excel/set_border"
    (PDict [("range", PStr "A1:D5");
            ("style", PStr "thin");
            ("edges", PStr "all")])
    (PBool true) ;;
  print (nl ++ "--- Number Format ---") ;;
  test_endpoint "POST" "/excel/set_number_format"
    (PDict [("range", PStr "B2:B4"); ("format", PStr "#,##0")])
    (PBool true) ;;
  test_endpoint "POST" "/excel/set_number_format"
    (PDict [("range", PStr "D2:D5"); ("format", PStr "#,##0")])
    (PBool true) ;;
  print (nl ++ "--- Merge Cells ---") ;;
  test_endpoint "POST" "/excel/write_cell"
    (PDict [("cell", PStr "A7"); ("value", PStr "Merged Header")])
    (PBool true) ;;
  test_endpoint "POST" "/excel/merge_cells"
    (PDict [("range", PStr "A7:D7")])
    (PBool true) ;;
  print (nl ++ "--- Sheet Operations ---") ;;
  test_endpoint "GET" "/excel/get_sheets" PNone (PBool true) ;;
  test_endpoint "POST" "/excel/add_sheet"
    (PDict [("name", PStr "TestSheet")])
    (PBool true) ;;
  test_endpoint "POST" "/excel/rename_sheet"
    (PDict [("old_name", PStr "TestSheet");
            ("new_name", PStr "RenamedSheet")])
    (PBool true) ;;
  test_endpoint "GET" "/excel/get_sheets" PNone (PBool true) ;;
  test_endpoint "POST" "/excel/delete_sheet"
    (PDict [("name", PStr "RenamedSheet")])
    (PBool true) ;;
  print (nl ++ "--- Insert/Delete Row/Column ---") ;;
  test_endpoint "POST" "/excel/insert_row"
    (PDict [("row", PInt 2); ("count", PInt 1)])
    (PBool true) ;;
  test_endpoint "POST" "/excel/insert_column"
    (PDict [("column", PStr "A"); ("count", PInt 1)])
    (PBool true) ;;
  test_endpoint "POST" "/excel/delete_row"
    (PDict [("row", PInt 2); ("count", PInt 1)])
    (PBool true) ;;
  test_endpoint "POST" "/excel/delete_column"
    (PDict [("column", PStr "A"); ("count", PInt 1)])
    (PBool true) ;;
  print (nl ++ "--- Auto Filter ---") ;;
  test_endpoint "POST" "/excel/auto_filter"
    (PDict [("range", PStr "A1:D5")])
    (PBool true) ;;
  test_endpoint "POST" "/excel/auto_filter"
    (PDict [("remove", PBool true)])
    (PBool true) ;;
  print (nl ++ "--- Freeze Panes ---") ;;
  test_endpoint "POST" "/excel/freeze_panes"
    (PDict [("cell", PStr "A2")])
    (PBool true) ;;
  test_endpoint "POST" "/excel/freeze_panes"
    (PDict [("unfreeze", PBool true)])
    (PBool true) ;;
  print (nl ++ "--- Screenshot ---") ;;
  result <- test_endpoint "GET" "/excel/screenshot" PNone (PBool true) ;;
  success <- get result "success" PNone ;;
  cond <- py_and success (get result "image" PNone) ;;
  (if truthy cond
   then image <- subscript result "image" ;;
        n <- len image ;;
        print ("       Screenshot captured: " ++ decimal n ++ " bytes (base64)")
   else ret tt) ;;
  print (nl ++ "--- Close ---") ;;
  test_endpoint "POST" "/excel/close"
    (PDict [("save", PBool false)])
    (PBool true) ;;
  print (nl ++ "[Excel Tests Complete]").

Definition test_powerpoint_features : M world event unit :=
  print (nl ++ str_mul "=" 50%nat) ;;
  print ("=== Microsoft PowerPoint Tests ===") ;;
  print (str_mul "=" 50%nat) ;;
  print (nl ++ "--- Basic Operations ---") ;;
  test_endpoint "POST" "/powerpoint/launch" PNone (PBool true) ;;
  time_sleep 1 ;;
  test_endpoint "POST" "/powerpoint/create" PNone (PBool true) ;;
  print (nl ++ "--- Add Slides ---") ;;
  test_endpoint "POST" "/powerpoint/add_slide"
    (PDict [("layout", PInt 1)])
    (PBool true) ;;
  test_endpoint "POST" "/powerpoint/add_slide"
    (PDict [("layout", PInt 2)])
    (PBool true) ;;
  test_endpoint "GET" "/powerpoint/get_slide_count" PNone (PBool true) ;;
  print (nl ++ "--- Write Text ---") ;;
  test_endpoint "POST" "/powerpoint/write_text"
    (PDict [("slide", PInt 1);
            ("shape", PInt 1);
            ("text", PStr "Presentation Title")])
    (PBool true) ;;
  test_endpoint "POST" "/powerpoint/write_text"
    (PDict [("slide", PInt 1);
            ("shape", PInt 2);
            ("text", PStr "Subtitle goes here")])
    (PBool true) ;;
  print (nl ++ "--- Add Textbox ---") ;;
  test_endpoint "POST" "/powerpoint/add_textbox"
    (PDict [("slide", PInt 2);
            ("text", PStr "Custom textbox content");
            ("left", PInt 100);
            ("top", PInt 300);
            ("width", PInt 400);
            ("height", PInt 50)])
    (PBool true) ;;
  print (nl ++ "--- Set Font ---") ;;
  test_endpoint "POST" "/powerpoint/set_font"
    (PDict [("slide", PInt 1);
            ("shape", PInt 1);
            ("font_name", PStr "Arial");
            ("font_size", PInt 44);
            ("bold", PBool true);
            ("color", PStr "#0066CC")])
    (PBool true) ;;
  print (nl ++ "--- Read Slide ---") ;;
  result <- test_endpoint "POST" "/powerpoint/read_slide"
    (PDict [("slide", PInt 1)])
    (PBool true) ;;
  success <- get result "success" PNone ;;
  (if truthy success
   then shapes <- get result "shapes" (PList []) ;;
        n <- len shapes ;;
        print ("       Shapes: " ++ decimal n)
   else ret tt) ;;
  print (nl ++ "--- Set Background ---") ;;
  test_endpoint "POST" "/powerpoint/set_background"
    (PDict [("slide", PInt 2); ("color", PStr "#E0E0E0")])
    (PBool true) ;;
  print (nl ++ "--- Add Animation ---") ;;
  test_endpoint "POST" "/powerpoint/add_animation"
    (PDict [("slide", PInt 1);
            ("shape", PInt 1);
            ("effect", PStr "fade");
            ("trigger", PStr "on_click")])
    (PBool true) ;;
  print (nl ++ "--- Screenshot ---") ;;
  result <- test_endpoint "GET" "/powerpoint/screenshot" PNone (PBool true) ;;
  success <- get result "success" PNone ;;
  cond <- py_and success (get result "image" PNone) ;;
  (if truthy cond
   then image <- subscript result "image" ;;
        n <- len image ;;
        print ("       Screenshot captured: " ++ decimal n ++ " bytes (base64)")
   else ret tt) ;;
  print (nl ++ "--- Close ---") ;;
  test_endpoint "POST" "/powerpoint/close"
    (PDict [("save", PBool false)])
    (PBool true) ;;
  print (nl ++ "[PowerPoint Tests Complete]").

Definition main : M world event unit :=
  print (str_mul "=" 60%nat) ;;
  print "Office Automation Server - Comprehensive Feature Test" ;;
  print (str_mul "=" 60%nat) ;;
  health <- test_health ;;
  success <- get health "success" PNone ;;
  if truthy (py_not success)
  then print (nl ++ "[ERROR] Server not running! Please start the server first.")
  else
    status <- get health "status" PNone ;;
    print (nl ++ "Server Status: " ++ py_str py_repr status) ;;
    version <- get health "version" PNone ;;
    print ("Version: " ++ py_str py_repr version) ;;
    try_except
      (test_word_features ;;
       time_sleep 1 ;;
       test_excel_features ;;
       time_sleep 1 ;;
       test_powerpoint_features)
      is_KeyboardInterrupt
      (fun _ => print (nl ++ nl ++ "[Interrupted by user]")) ;;
    print (nl ++ str_mul "=" 60%nat) ;;
    print "All tests completed!" ;;
    print (str_mul "=" 60%nat).

End Script.

End TestAllFeatures.

(** ** [test_endpoint] at a console that can fail

    [test_endpoint] prints inside its own [try] and again inside its
    own handler, so what becomes of a [print] that raises is part of
    what the function does: raised inside the [try] it is caught like
    any other [Exception], raised by the handler's [print] it leaves
    the function.  And Ctrl-C is not bound to the moments the script
    waits on the network: it can arrive before the request is made or
    right after a line has been printed.  Here the one function is
    embedded once more, against a world that has both.  Against a
    console on which every line gets out and with no Ctrl-C it is the
    function of the module above. *)

Module Console.

Import Py Eff TestAllFeatures.
Local Open Scope eff_scope.
Local Open Scope string_scope.

(** How a call of [print] ends: the line is out; the call raises and
    nothing is out (a character the console cannot encode, a closed
    pipe, Ctrl-C on the way in); the line is out and the call raises
    all the same (Ctrl-C right after it, an error on flushing). *)
Inductive printed : Type :=
| Shown
| Lost (e : exn)
| ShownThen (e : exn).

(** The far end as before, the console, and whether the user has
    pressed Ctrl-C by the time the function is entered, all as
    functions of what has happened so far. *)
Record world : Type := {
  far_end : TestAllFeatures.world;
  stdout : list event -> string -> printed;
  ctrl_c : list event -> bool
}.

(** A step that does not touch the console runs as it does above. *)
Definition at_far_end {A} (m : M TestAllFeatures.world event A)
  : M world event A :=
  fun w t => m (far_end w) t.

(** The interpreter delivers a pending Ctrl-C. *)
Definition checkpoint : M world event unit :=
  observe (fun w t => if ctrl_c w t then Raise KeyboardInterrupt else Ok tt).

Definition print (line : string) : M world event unit :=
  fun w t =>
    match stdout w t line with
    | Shown => (Ok tt, (t ++ [Print line])%list)
    | Lost e => (Raise e, t)
    | ShownThen e => (Raise e, (t ++ [Print line])%list)
    end.

Definition requests_get (url : string) (timeout : Z) : M world event response :=
  at_far_end (TestAllFeatures.requests_get url timeout).

Definition requests_post (url : string) (json : pyval) (timeout : Z)
  : M world event response :=
  at_far_end (TestAllFeatures.requests_post url json timeout).

Definition response_json (r : response) : M world event pyval :=
  at_far_end (TestAllFeatures.response_json r).

Definition get (obj : pyval) (key : string) (default : pyval)
  : M world event pyval :=
  at_far_end (TestAllFeatures.get obj key default).

Definition py_and (a : pyval) (b : M world event pyval) : M world event pyval :=
  if truthy a then b else ret a.

Section Script.

Variable py_repr : pyval -> string.

(** [def test_endpoint(method, endpoint, data=None, expected_success=True)] *)
Definition test_endpoint (method endpoint : string)
    (data expected_success : pyval) : M world event pyval :=
  let url := BASE_URL ++ endpoint in
  checkpoint ;;
  try_except
    (response <- (if String.eqb method "GET"
                  then requests_get url 10
                  else requests_post url data 10) ;;
     result <- response_json response ;;
     success <- get result "success" PNone ;;
     let status := if py_eq success expected_success then "OK" else "FAIL" in
     print ("  [" ++ status ++ "] " ++ method ++ " " ++ endpoint) ;;
     success <- get result "success" PNone ;;
     cond <- py_and (py_not success) (ret expected_success) ;;
     (if truthy cond
      then message <- get result "message" (PStr "Unknown") ;;
           error <- get result "error" message ;;
           print ("       Error: " ++ py_str py_repr error)
      else ret tt) ;;
     ret result)
    is_Exception
    (fun e =>
       print ("  [ERROR] " ++ method ++ " " ++ endpoint ++ ": " ++ exn_str e) ;;
       ret (PDict [("success", PBool false); ("error", PStr (exn_str e))])).

End Script.

End Console.

(** ** [office-server/build.py] *)

Module Build.

Import Py Eff.
Local Open Scope eff_scope.
Local Open Scope string_scope.

(** The effects of the build script, in the order they happen. *)
Inductive event : Type :=
| Print (line : string)
| Run (argv : list string)
| Import (module : string)
| Rmtree (folder : string).

(** Everything outside the script: the interpreter's [sys] values, the
    path separator of [os.path], and what subprocesses, imports and the
    file system do, as functions of what has happened so far. *)
Record world : Type := {
  sys_platform : string;
  sys_version : string;
  sys_executable : string;
  os_sep : string;
  spawn : list event -> list string -> outcome Z;
  load : list event -> string -> option exn;
  path_exists : list event -> string -> bool;
  remove_tree : list event -> string -> option exn;
  file_size : list event -> string -> outcome Z
}.

Definition print (line : string) : M world event unit := emit (Print line).

(** [sys.exit(code)] *)
Definition sys_exit {A} (code : Z) : M world event A := raise (SystemExit code).

Definition sys (field : world -> string) : M world event string :=
  observe (fun w _ => Ok (field w)).

(** [import module] *)
Definition import (module : string) : M world event unit :=
  perform (Import module)
    (fun w t => match load w t module with
                | Some e => Raise e
                | None => Ok tt
                end).

(** [os.path.exists(path)] *)
Definition os_path_exists (path : string) : M world event bool :=
  observe (fun w t => Ok (path_exists w t path)).

(** [os.path.getsize(path)] *)
Definition os_path_getsize (path : string) : M world event Z :=
  observe (fun w t => file_size w t path).

(** [os.path.join(a, b)] for a relative [b] and an [a] that does not
    end in a separator *)
Definition os_path_join (a b : string) : M world event string :=
  observe (fun w _ => Ok (a ++ os_sep w ++ b)).

(** [shutil.rmtree(folder)] *)
Definition shutil_rmtree (folder : string) : M world event unit :=
  perform (Rmtree folder)
    (fun w t => match remove_tree w t folder with
                | Some e => Raise e
                | None => Ok tt
                end).

Fixpoint join (sep : string) (parts : list string) : string :=
  match parts with
  | [] => ""
  | [p] => p
  | p :: rest => p ++ sep ++ join sep rest
  end.

Section Script.

Variable py_repr : pyval -> string.

(** The text of [f"{size / (1024 * 1024):.1f}"]: the float division and
    its rounding to one decimal are the interpreter's. *)
Variable format_mb : Z -> string.

(** [repr] of a list of strings *)
Definition list_repr (xs : list string) : string :=
  "[" ++ join ", " (map (fun x => py_repr (PStr x)) xs) ++ "]".

(** [subprocess.run(argv, check=check).returncode]; with [check] a
    non-zero return code raises [CalledProcessError]. *)
Definition subprocess_run (argv : list string) (check : bool)
  : M world event Z :=
  returncode <- perform (Run argv) (fun w t => spawn w t argv) ;;
  if check && negb (returncode =? 0)%Z
  then raise (Exception "CalledProcessError"
                ("Command '" ++ list_repr argv
                 ++ "' returned non-zero exit status "
                 ++ decimal returncode ++ "."))
  else ret returncode.

Definition main : M world event unit :=
  print (str_mul "=" 60%nat) ;;
  print "Office Server Build Script" ;;
  print (str_mul "=" 60%nat) ;;
  platform <- sys sys_platform ;;
  (if negb (String.eqb platform "win32")
   then print "ERROR: This script must be run on Windows" ;;
        sys_exit 1
   else ret tt) ;;
  version <- sys sys_version ;;
  print ("Python version: " ++ version) ;;
  print (nl ++ "[1/4] Installing dependencies...") ;;
  executable <- sys sys_executable ;;
  subprocess_run
    [executable; "-m"; "pip"; "install"; "-r"; "requirements.txt"] true ;;
  print (nl ++ "[2/4] Verifying pywin32...") ;;
  try_except
    (import "win32com.client" ;;
     import "pythoncom" ;;
     print "  pywin32 OK")
    is_ImportError
    (fun e =>
       print ("ERROR: pywin32 not properly installed: " ++ exn_str e) ;;
       print "Try running: python -m pip install pywin32" ;;
       print "Then run: python Scripts/pywin32_postinstall.py -install" ;;
       sys_exit 1) ;;
  print (nl ++ "[3/4] Cleaning previous builds...") ;;
  for_each ["build"; "dist"]
    (fun folder =>
       present <- os_path_exists folder ;;
       if (present : bool)
       then shutil_rmtree folder ;;
            print ("  Removed " ++ folder ++ "/")
       else ret tt) ;;
  print (nl ++ "[4/4] Building with PyInstaller...") ;;
  executable <- sys sys_executable ;;
  returncode <- subprocess_run
    [executable; "-m"; "PyInstaller";
     "--onefile";
     "--console";
     "--name"; "office-server";
     "--hidden-import"; "win32com";
     "--hidden-import"; "win32com.client";
     "--hidden-import"; "win32gui";
     "--hidden-import"; "win32ui";
     "--hidden-import"; "win32con";
     "--hidden-import"; "win32api";
     "--hidden-import"; "pythoncom";
     "--hidden-import"; "pywintypes";
     "--hidden-import"; "flask";
     "--hidden-import"; "flask_cors";
     "--hidden-import"; "PIL";
     "--hidden-import"; "PIL.Image";
     "server.py"] false ;;
  (if negb (returncode =? 0)%Z
   then print (nl ++ "ERROR: PyInstaller build failed") ;;
        sys_exit 1
   else ret tt) ;;
  exe_path <- os_path_join "dist" "office-server.exe" ;;
  present <- os_path_exists exe_path ;;
  if (present : bool)
  then size <- os_path_getsize exe_path ;;
       print (nl ++ str_mul "=" 60%nat) ;;
       print "BUILD SUCCESSFUL!" ;;
       print (str_mul "=" 60%nat) ;;
       print ("Output: " ++ exe_path) ;;
       print ("Size: " ++ format_mb size ++ " MB") ;;
       print (nl ++ "To test:") ;;
       print ("  " ++ exe_path ++ " --port 8765") ;;
       print (nl ++ "To copy to bin folder:") ;;
       print ("  copy " ++ exe_path ++ " ..\bin\")
  else print (nl ++ "ERROR: Output file not found") ;;
       sys_exit 1.

End Script.

(** The status the interpreter exits with once [main()] at the bottom
    of the script has ended: 0 after a normal return, the code given to
    [sys.exit], 1 after an uncaught [Exception]; after an uncaught
    [KeyboardInterrupt] it depends on the platform. *)
Definition exit_status (o : outcome unit) : option Z :=
  match o with
  | Ok _ => Some 0%Z
  | Raise (SystemExit code) => Some code
  | Raise KeyboardInterrupt => None
  | Raise _ => Some 1%Z
  end.

End Build.

(** * Vocabulary of the statements *)

(** ** Traces in general *)

Module Trace.

Import Eff.

Section Trace.

Context {W E : Type}.

(** What a computation adds to the trace it starts from. *)
Definition emitted {A} (m : M W E A) (w : W) (t : list E) : list E :=
  skipn (List.length t) (snd (m w t)).

(** [visible] selects the events a statement is about; [good] the
    worlds it is about. *)
Variable visible : E -> bool.
Variable good : W -> Prop.

(** [m] always returns, having added exactly the visible events [s],
    and what it returns satisfies [Q]. *)
Definition total {A} (m : M W E A) (s : list E) (Q : A -> Prop) : Prop :=
  forall w t, good w ->
    exists a d, m w t = (Ok a, t ++ d) /\ filter visible d = s /\ Q a.

(** [m] adds the visible events [s] in this order when it returns, and
    an initial part of [s] of length at least [g] when it raises. *)
Definition plays {A} (m : M W E A) (s : list E) (g : nat) : Prop :=
  forall w t, good w ->
    exists d, snd (m w t) = t ++ d /\
      match fst (m w t) with
      | Ok _ => filter visible d = s
      | Raise _ =>
          exists n, (g <= n <= List.length s)%nat /\
                    filter visible d = firstn n s
      end.

(** [m] adds an initial part of [s], whether it returns or raises. *)
Definition within {A} (m : M W E A) (s : list E) : Prop :=
  forall w t, good w ->
    exists d n, snd (m w t) = t ++ d /\ filter visible d = firstn n s.

End Trace.

(** Every event [m] adds satisfies [P]. *)
Definition only {W E A} (P : E -> bool) (m : M W E A) : Prop :=
  forall w t, exists d, snd (m w t) = t ++ d /\ forallb P d = true.

(** [m] always raises [e], having added exactly the visible events
    [s]. *)
Definition crashes {W E A} (visible : E -> bool) (good : W -> Prop)
    (m : M W E A) (e : Py.exn) (s : list E) : Prop :=
  forall w t, good w ->
    exists d, m w t = (Raise e, t ++ d) /\ filter visible d = s.

End Trace.

(** ** The smoke test *)

Module TestVocabulary.

Import Py Eff TestAllFeatures.
Local Open Scope string_scope.

(** The one call into [requests] that [test_endpoint] makes. *)
Definition request_of (method endpoint : string) (data : pyval) : request :=
  if String.eqb method "GET"
  then GET (BASE_URL ++ endpoint) 10
  else POST (BASE_URL ++ endpoint) data 10.

(** [items.get(key, default)] on the items of a dict *)
Definition field (items : list (string * pyval)) (key : string)
    (default : pyval) : pyval :=
  match assoc key items with
  | Some v => v
  | None => default
  end.

(** The dict [test_endpoint] returns from its [except] branch. *)
Definition error_dict (e : exn) : pyval :=
  PDict [("success", PBool false); ("error", PStr (exn_str e))].

(** What [result.get] raises when the decoded body is not a dict. *)
Definition no_get (v : pyval) : exn :=
  Exception "AttributeError"
    ("'" ++ type_name v ++ "' object has no attribute 'get'").

(** The exception, if any, raised by the call into [requests] or by
    [.json()]. *)
Definition raised (r : reply) : option exn :=
  match r with
  | Raised e => Some e
  | Responded (Raise e) => Some e
  | Responded (Ok _) => None
  end.

(** How the [try] block gets past sending, decoding and its first
    [result.get]: with the exception met, or with the items of the
    decoded dict. *)
Definition inspect (r : reply) : exn + list (string * pyval) :=
  match r with
  | Raised e => inl e
  | Responded (Raise e) => inl e
  | Responded (Ok (PDict items)) => inr items
  | Responded (Ok v) => inl (no_get v)
  end.

Fixpoint starts_with (p s : string) : bool :=
  match p with
  | EmptyString => true
  | String a p' =>
      match s with
      | EmptyString => false
      | String b s' => Ascii.eqb a b && starts_with p' s'
      end
  end.



(** The requests among some events, in order. *)
Fixpoint requests (d : list event) : list request :=
  match d with
  | [] => []
  | Request r :: d' => r :: requests d'
  | _ :: d' => requests d'
  end.

(** The requests and sleeps: what the far end can observe. *)
Definition on_the_wire (ev : event) : bool :=
  match ev with
  | Print _ => false
  | Request _ | Sleep _ => true
  end.

(** A world in which no call into [requests], no [.json()] and no sleep
    ends in anything but a value or an [Exception]. *)
Definition uninterrupted (w : world) : Prop :=
  (forall t r e, raised (server w t r) = Some e -> is_Exception e = true)
  /\ (forall t n, interrupt w t n = None).

Definition any_world (w : world) : Prop := True.

Definition is_dict (v : pyval) : Prop := exists items, v = PDict items.

(** The lines [test_endpoint] prints. *)
Definition status_line (tag method endpoint : string) : string :=
  "  [" ++ tag ++ "] " ++ method ++ " " ++ endpoint.

Definition error_line (method endpoint : string) (e : exn) : string :=
  "  [ERROR] " ++ method ++ " " ++ endpoint ++ ": " ++ exn_str e.

(** Sample worlds and a sample [repr]. *)
Definition answering (v : pyval) : world :=
  {| server := fun _ _ => Responded (Ok v);
     interrupt := fun _ _ => None |}.

Definition failing (e : exn) : world :=
  {| server := fun _ _ => Raised e;
     interrupt := fun _ _ => None |}.

Definition sample_repr (v : pyval) : string := "<" ++ type_name v ++ ">".

Definition wire (d : list event) : list event := filter on_the_wire d.

(** The requests and sleeps of a run in which every request is
    answered [{"success": true}]. *)
Definition obliging : world := answering (PDict [("success", PBool true)]).

Definition word_script : list event :=
  wire (snd (test_word_features sample_repr obliging [])).

Definition excel_script : list event :=
  wire (snd (test_excel_features sample_repr obliging [])).

Definition powerpoint_script : list event :=
  wire (snd (test_powerpoint_features sample_repr obliging [])).

Definition main_script : list event :=
  wire (snd (main sample_repr obliging [])).

(** How each application test begins. *)
Definition opening (app : string) : list event :=
  [Request (POST (BASE_URL ++ "/" ++ app ++ "/launch") PNone 10);
   Sleep 1;
   Request (POST (BASE_URL ++ "/" ++ app ++ "/create") PNone 10)].

(** The shape of a request: a POST to [endpoint] whose body is a dict
    with exactly the keys [keys]. *)
Definition has_shape (endpoint : string) (keys : list string) (r : request)
  : bool :=
  match r with
  | POST url (PDict items) _ =>
      String.eqb url (BASE_URL ++ endpoint)
      && if list_eq_dec string_dec (map fst items) keys then true else false
  | _ => false
  end.

Definition url_of (r : request) : string :=
  match r with
  | GET url _ => url
  | POST url _ _ => url
  end.

(** The request shapes the interface description names. *)
Definition named_shapes : list (string * list string) :=
  [("/word/write", ["text"]);
   ("/excel/set_formula", ["cell"; "formula"]);
   ("/powerpoint/add_slide", ["layout"])].

(** A request to one of the named endpoints has the shape named. *)
Definition respects (r : request) : bool :=
  forallb (fun shape =>
             negb (String.eqb (url_of r) (BASE_URL ++ fst shape))
             || has_shape (fst shape) (snd shape) r)
          named_shapes.

(** What [main] has printed when it sends the health check. *)
Definition banner : list event :=
  [Print (str_mul "=" 60);
   Print "Office Automation Server - Comprehensive Feature Test";
   Print (str_mul "=" 60);
   Print (nl ++ "=== Health Check ===")].

Definition health_check : request := GET (BASE_URL ++ "/health") 10.

(** The health check fails: [test_health] returns a dict whose
    [success] is falsy, be it the server's or the one made from an
    [Exception]. *)
Definition health_fails (w : world) : bool :=
  match inspect (server w banner health_check) with
  | inl e => is_Exception e
  | inr items => negb (truthy (field items "success" PNone))
  end.

(** How each application test ends: the document is closed without
    being saved. *)
Definition closing (app : string) : event :=
  Request (POST (BASE_URL ++ "/" ++ app ++ "/close")
             (PDict [("save", PBool false)]) 10).

Definition timeout_of (r : request) : Z :=
  match r with
  | GET _ timeout => timeout
  | POST _ _ timeout => timeout
  end.

(** The request goes to the local server and gives up after ten
    seconds. *)
Definition local (r : request) : bool :=
  starts_with (BASE_URL ++ "/") (url_of r) && (timeout_of r =? 10)%Z.

(** The request belongs to the tests of [app]. *)
Definition concerns (app : string) (r : request) : bool :=
  starts_with (BASE_URL ++ "/" ++ app ++ "/") (url_of r).

(** The body of the [try] in [main]. *)
Definition application_tests (py_repr : pyval -> string)
  : M world event unit :=
  bind (test_word_features py_repr) (fun _ =>
  bind (time_sleep 1) (fun _ =>
  bind (test_excel_features py_repr) (fun _ =>
  bind (time_sleep 1) (fun _ =>
  test_powerpoint_features py_repr)))).

(** The trace of [main] when it enters the [try], the health check
    having come back with the dict [items]. *)
Definition greeting (py_repr : pyval -> string)
    (items : list (string * pyval)) : list event :=
  (banner ++
   [Request health_check;
    Print (status_line
             (if py_eq (field items "success" PNone) (PBool true)
              then "OK" else "FAIL") "GET" "/health");
    Print (nl ++ "Server Status: " ++ py_str py_repr (field items "status" PNone));
    Print ("Version: " ++ py_str py_repr (field items "version" PNone))])%list.

Definition interrupted : event := Print (nl ++ nl ++ "[Interrupted by user]").

(** The last lines of [main]. *)
Definition farewell : list event :=
  [Print (nl ++ str_mul "=" 60);
   Print "All tests completed!";
   Print (str_mul "=" 60)].

(** A value [len] does not accept. *)
Definition unsized (v : pyval) : bool :=
  match v with
  | PStr _ | PList _ | PDict _ => false
  | _ => true
  end.

(** The dict reports success and carries [v] as its [image]. *)
Definition shows (v : pyval) (result : pyval) : Prop :=
  exists items,
    result = PDict items
    /\ truthy (field items "success" PNone) = true
    /\ assoc "image" items = Some v.

(** A world that is never interrupted and whose server answers every
    request with a dict reporting success and carrying [v] as its
    [image]. *)
Definition careless (v : pyval) (w : world) : Prop :=
  (forall t r, exists items,
      server w t r = Responded (Ok (PDict items))
      /\ truthy (field items "success" PNone) = true
      /\ assoc "image" items = Some v)
  /\ (forall t n, interrupt w t n = None).

(** What [len] raises on a value it does not accept. *)
Definition no_len (v : pyval) : exn :=
  Exception "TypeError" ("object of type '" ++ type_name v ++ "' has no len()").

(** A world in which the user presses Ctrl-C during the first sleep. *)
Definition impatient : world :=
  {| server := fun _ _ => Responded (Ok (PDict [("success", PBool true)]));
     interrupt := fun _ _ => Some KeyboardInterrupt |}.

End TestVocabulary.

(** ** The smoke test at a console that can fail *)

Module ConsoleVocabulary.

Import Py Eff TestAllFeatures TestVocabulary Console.
Local Open Scope string_scope.

(** Every line gets out and no Ctrl-C arrives. *)
Definition flawless (w : world) : Prop :=
  (forall t line, stdout w t line = Shown)
  /\ (forall t, ctrl_c w t = false).

(** The far end [w] seen through such a console. *)
Definition ideal (w : TestAllFeatures.world) : world :=
  {| far_end := w;
     stdout := fun _ _ => Shown;
     ctrl_c := fun _ => false |}.

(** The label the [try] block computes for a decoded dict. *)
Definition label (items : list (string * pyval)) (expected : pyval) : string :=
  if py_eq (field items "success" PNone) expected then "OK" else "FAIL".

(** The line that explains a failure. *)
Definition diagnostic (py_repr : pyval -> string)
    (items : list (string * pyval)) : string :=
  "       Error: "
  ++ py_str py_repr (field items "error" (field items "message" (PStr "Unknown"))).

(** The [except] branch entered with [e] at trace [t]: how it ends and
    what it adds to the trace. *)
Definition except_branch (method endpoint : string) (e : exn)
    (w : world) (t : list event) : outcome pyval * list event :=
  match stdout w t (error_line method endpoint e) with
  | Shown => (Ok (error_dict e), [Print (error_line method endpoint e)])
  | Lost e' => (Raise e', [])
  | ShownThen e' => (Raise e', [Print (error_line method endpoint e)])
  end.

(** What becomes of [e] raised inside the [try] at trace [t]. *)
Definition out_of_try (method endpoint : string) (e : exn)
    (w : world) (t : list event) : outcome pyval * list event :=
  if is_Exception e then except_branch method endpoint e w t else (Raise e, []).

(** A run that has added [d] and goes on as [rest]. *)
Definition and_then {A} (d : list event) (rest : outcome A * list event)
  : outcome A * list event :=
  (fst rest, (d ++ snd rest)%list).

(** The whole of one call: how it ends and what it adds to the trace,
    by what the user, the far end and the console do. *)
Definition behaviour (py_repr : pyval -> string) (method endpoint : string)
    (data expected : pyval) (w : world) (t : list event)
  : outcome pyval * list event :=
  let r := request_of method endpoint data in
  if ctrl_c w t then (Raise KeyboardInterrupt, [])
  else
    and_then [Request r]
      (match inspect (server (far_end w) t r) with
       | inl e => out_of_try method endpoint e w (t ++ [Request r])%list
       | inr items =>
           let line := status_line (label items expected) method endpoint in
           match stdout w (t ++ [Request r])%list line with
           | Lost e => out_of_try method endpoint e w (t ++ [Request r])%list
           | ShownThen e =>
               and_then [Print line]
                 (out_of_try method endpoint e w
                    (t ++ [Request r; Print line])%list)
           | Shown =>
               and_then [Print line]
                 (if negb (truthy (field items "success" PNone))
                     && truthy expected
                  then
                    let t' := (t ++ [Request r; Print line])%list in
                    match stdout w t' (diagnostic py_repr items) with
                    | Shown =>
                        (Ok (PDict items), [Print (diagnostic py_repr items)])
                    | Lost e => out_of_try method endpoint e w t'
                    | ShownThen e =>
                        and_then [Print (diagnostic py_repr items)]
                          (out_of_try method endpoint e w
                             (t' ++ [Print (diagnostic py_repr items)])%list)
                    end
                  else (Ok (PDict items), []))
           end
       end).






(** A console whose reader has gone away: every [print] raises
    [BrokenPipeError]. *)
Definition broken_pipe : exn := Exception "BrokenPipeError" "[Errno 32] Broken pipe".

Definition closed_console (w : TestAllFeatures.world) : world :=
  {| far_end := w;
     stdout := fun _ _ => Lost broken_pipe;
     ctrl_c := fun _ => false |}.

(** The user presses Ctrl-C right after the first line is out. *)
Definition hasty_console (w : TestAllFeatures.world) : world :=
  {| far_end := w;
     stdout := fun _ _ => ShownThen KeyboardInterrupt;
     ctrl_c := fun _ => false |}.

(** The user has pressed Ctrl-C before the function is entered. *)
Definition late_console (w : TestAllFeatures.world) : world :=
  {| far_end := w;
     stdout := fun _ _ => Shown;
     ctrl_c := fun _ => true |}.


End ConsoleVocabulary.

(** ** The build script *)

Module BuildVocabulary.

Import Py Eff Build.
Local Open Scope string_scope.

(** The command line PyInstaller is started with. *)
Definition pyinstaller_argv (executable : string) : list string :=
  [executable; "-m"; "PyInstaller";
   "--onefile"; "--console"; "--name"; "office-server";
   "--hidden-import"; "win32com";
   "--hidden-import"; "win32com.client";
   "--hidden-import"; "win32gui";
   "--hidden-import"; "win32ui";
   "--hidden-import"; "win32con";
   "--hidden-import"; "win32api";
   "--hidden-import"; "pythoncom";
   "--hidden-import"; "pywintypes";
   "--hidden-import"; "flask";
   "--hidden-import"; "flask_cors";
   "--hidden-import"; "PIL";
   "--hidden-import"; "PIL.Image";
   "server.py"].

(** The event starts a subprocess running the PyInstaller module. *)
Definition invokes_pyinstaller (ev : event) : bool :=
  match ev with
  | Run argv => String.eqb (nth 2 argv "") "PyInstaller"
  | _ => false
  end.

(** The event is the line that announces the build step. *)
Definition announces_build (ev : event) : bool :=
  match ev with
  | Print line => String.eqb line (nl ++ "[4/4] Building with PyInstaller...")
  | _ => false
  end.

(** The event does something beyond printing: it starts a subprocess,
    loads a module or removes a folder. *)
Definition changes_state (ev : event) : bool :=
  match ev with
  | Print _ => false
  | Run _ | Import _ | Rmtree _ => true
  end.

(** [os.path.join('dist', 'office-server.exe')] *)
Definition exe_path (w : world) : string :=
  "dist" ++ os_sep w ++ "office-server.exe".

(** Neither a PyInstaller invocation nor the line announcing it. *)
Definition preliminary (ev : event) : bool :=
  negb (invokes_pyinstaller ev) && negb (announces_build ev).

(** What is to be shown of a run from trace [t] that ended as [run]:
    if the build step was announced, PyInstaller was started exactly
    once, with the fixed command line, and a non-zero return code or a
    missing executable ends the run through [sys.exit(1)]; if it was
    not announced, PyInstaller was not started. *)
Definition builds_once (w : world) (t : list event)
    (run : outcome unit * list event) : Prop :=
  let argv := pyinstaller_argv (sys_executable w) in
  exists d, snd run = (t ++ d)%list /\
    if existsb announces_build d
    then exists before after,
           d = (before ++ Run argv :: after)%list
           /\ filter invokes_pyinstaller before = []
           /\ filter invokes_pyinstaller after = []
           /\ match spawn w (t ++ before)%list argv with
              | Raise e => fst run = Raise e
              | Ok returncode =>
                  if negb (returncode =? 0)%Z
                  then fst run = Raise (SystemExit 1)
                  else
                    let t' := (t ++ before ++ [Run argv])%list in
                    if path_exists w t' (exe_path w)
                    then match file_size w t' (exe_path w) with
                         | Ok _ => fst run = Ok tt
                         | Raise e => fst run = Raise e
                         end
                    else fst run = Raise (SystemExit 1)
              end
    else filter invokes_pyinstaller d = [].

Definition always_builds_once (m : M world event unit) : Prop :=
  forall w t, builds_once w t (m w t).

(** What the script prints before it looks at the platform, and what
    it prints when the platform is not Windows. *)
Definition heading : list event :=
  [Print (str_mul "=" 60);
   Print "Office Server Build Script";
   Print (str_mul "=" 60)].

Definition not_windows : event :=
  Print "ERROR: This script must be run on Windows".

(** Sample worlds: a Windows machine on which every step succeeds, and
    a Linux machine. *)
Definition windows : world :=
  {| sys_platform := "win32";
     sys_version := "3.11.4";
     sys_executable := "python.exe";
     os_sep := "\";
     spawn := fun _ _ => Ok 0;
     load := fun _ _ => None;
     path_exists := fun _ path => String.eqb path "dist\office-server.exe";
     remove_tree := fun _ _ => None;
     file_size := fun _ _ => Ok 20971520 |}.

Definition linux : world :=
  {| sys_platform := "linux";
     sys_version := "3.11.4";
     sys_executable := "/usr/bin/python3";
     os_sep := "/";
     spawn := fun _ _ => Ok 0;
     load := fun _ _ => Some (ImportError "No module named 'win32com'");
     path_exists := fun _ _ => false;
     remove_tree := fun _ _ => None;
     file_size := fun _ _ => Raise (Exception "FileNotFoundError" "dist") |}.

Definition sample_mb (size : Z) : string := decimal (size / 1048576) ++ ".0".

(** The command line pip is started with. *)
Definition pip_argv (executable : string) : list string :=
  [executable; "-m"; "pip"; "install"; "-r"; "requirements.txt"].

Fixpoint strings_eqb (xs ys : list string) : bool :=
  match xs, ys with
  | [], [] => true
  | x :: xs', y :: ys' => String.eqb x y && strings_eqb xs' ys'
  | _, _ => false
  end.

(** [argv] is [executable] followed by the arguments of [command]. *)
Definition runs (command : string -> list string) (executable : string)
    (argv : list string) : bool :=
  strings_eqb (tl argv) (tl (command executable))
  && String.eqb (hd "" argv) executable.

(** The place of a state-changing event in the build: 1 for the pip
    install, 2 and 3 for the two imports, 4 and 5 for the removal of
    [build] and of [dist], 6 for PyInstaller; 0 for a line printed and
    for anything the script has no business doing. *)
Definition step_number (w : world) (ev : event) : nat :=
  match ev with
  | Print _ => 0
  | Run argv =>
      if runs pip_argv (sys_executable w) argv then 1
      else if runs pyinstaller_argv (sys_executable w) argv then 6
      else 0
  | Import module =>
      if String.eqb module "win32com.client" then 2
      else if String.eqb module "pythoncom" then 3
      else 0
  | Rmtree folder =>
      if String.eqb folder "build" then 4
      else if String.eqb folder "dist" then 5
      else 0
  end.

Definition steps (w : world) (d : list event) : list nat :=
  map (step_number w) (filter changes_state d).

(** Which step may come right after which: the first three in order,
    then each removal at most once and only if still ahead, then
    PyInstaller. *)
Definition allowed (a b : nat) : bool :=
  match a, b with
  | 0, 1 | 1, 2 | 2, 3 | 3, 4 | 3, 5 | 3, 6 | 4, 5 | 4, 6 | 5, 6 => true
  | _, _ => false
  end%nat.

Fixpoint chain (a : nat) (l : list nat) : bool :=
  match l with
  | [] => true
  | b :: l' => allowed a b && chain b l'
  end.

(** From any step in [P], the steps [m] takes form a chain, and when
    [m] returns the step reached is in [Q]. *)
Definition moves {A} (w : world) (m : M world event A) (P Q : list nat)
  : Prop :=
  forall a t, In a P ->
    exists d, snd (m w t) = (t ++ d)%list
              /\ chain a (steps w d) = true
              /\ forall x, fst (m w t) = Ok x -> In (last (steps w d) a) Q.

Definition is_print (ev : event) : bool := negb (changes_state ev).

Definition keeps (ev : event) : bool :=
  match ev with
  | Rmtree _ => false
  | _ => true
  end.

(** Every removal among the events [d], added to the trace [t], is of
    a folder that [os.path.exists] reports at that moment. *)
Fixpoint guards (w : world) (t d : list event) : Prop :=
  match d with
  | [] => True
  | ev :: d' =>
      match ev with
      | Rmtree folder => path_exists w t folder = true
      | _ => True
      end /\ guards w (t ++ [ev])%list d'
  end.

Definition guarded {A} (w : world) (m : M world event A) : Prop :=
  forall t, exists d, snd (m w t) = (t ++ d)%list /\ guards w t d.

(** A run from [t] that returns normally has started PyInstaller, got
    0 back, found the executable and reported success. *)
Definition succeeded (w : world) (t : list event)
    (run : outcome unit * list event) : Prop :=
  let argv := pyinstaller_argv (sys_executable w) in
  exists d, snd run = (t ++ d)%list /\
    (fst run = Ok tt ->
     exists before after,
       d = (before ++ Run argv :: after)%list
       /\ spawn w (t ++ before)%list argv = Ok 0%Z
       /\ path_exists w (t ++ before ++ [Run argv])%list (exe_path w) = true
       /\ In (Print "BUILD SUCCESSFUL!") after).

Definition always_succeeded (m : M world event unit) : Prop :=
  forall w t, succeeded w t (m w t).

(** The lines printed between the platform check and the pip install,
    and those printed when pywin32 cannot be imported. *)
Definition installing (w : world) : list event :=
  [Print ("Python version: " ++ sys_version w);
   Print (nl ++ "[1/4] Installing dependencies...")].

Definition verifying : event := Print (nl ++ "[2/4] Verifying pywin32...").

Definition pywin32_missing (e : exn) : list event :=
  [Print ("ERROR: pywin32 not properly installed: " ++ exn_str e);
   Print "Try running: python -m pip install pywin32";
   Print "Then run: python Scripts/pywin32_postinstall.py -install"].

(** A Windows machine on which pip fails, and one without pywin32. *)
Definition offline : world :=
  {| sys_platform := "win32";
     sys_version := "3.11.4";
     sys_executable := "python.exe";
     os_sep := "\";
     spawn := fun _ _ => Ok 1;
     load := fun _ _ => None;
     path_exists := fun _ _ => true;
     remove_tree := fun _ _ => None;
     file_size := fun _ _ => Ok 0 |}.

Definition bare : world :=
  {| sys_platform := "win32";
     sys_version := "3.11.4";
     sys_executable := "python.exe";
     os_sep := "\";
     spawn := fun _ _ => Ok 0;
     load := fun _ _ => Some (ImportError "No module named 'win32com'");
     path_exists := fun _ _ => true;
     remove_tree := fun _ _ => None;
     file_size := fun _ _ => Ok 0 |}.

(** A Windows machine on which every step succeeds and an earlier build
    has left its folders behind. *)
Definition cluttered : world :=
  {| sys_platform := "win32";
     sys_version := "3.11.4";
     sys_executable := "python.exe";
     os_sep := "\";
     spawn := fun _ _ => Ok 0;
     load := fun _ _ => None;
     path_exists := fun _ _ => true;
     remove_tree := fun _ _ => None;
     file_size := fun _ _ => Ok 20971520 |}.

(** A Windows machine on which every subprocess returns 0, both
    modules can be imported, whatever is to be removed can be, and the
    executable is there to be measured whenever it is looked for. *)
Definition cooperative (w : world) : Prop :=
  sys_platform w = "win32"
  /\ (forall t argv, spawn w t argv = Ok 0%Z)
  /\ (forall t module, load w t module = None)
  /\ (forall t folder, remove_tree w t folder = None)
  /\ (forall t, path_exists w t (exe_path w) = true)
  /\ (forall t, exists size, file_size w t (exe_path w) = Ok size).


(** A Windows machine on which nothing stands in the way of the build
    step: pip returns 0, both modules can be imported, and whatever is
    to be removed can be. *)
Definition ready (w : world) : Prop :=
  sys_platform w = "win32"
  /\ (forall t, spawn w t (pip_argv (sys_executable w)) = Ok 0%Z)
  /\ (forall t module, load w t module = None)
  /\ (forall t folder, remove_tree w t folder = None).

End BuildVocabulary.

(** * Facts about Python values and traces *)

Module PyTheory.

Import Py.




(** On bools, [==] is equality. *)
Lemma py_eq_bool b c : py_eq (PBool b) (PBool c) = Bool.eqb b c.
Proof. now destruct b, c. Qed.


End PyTheory.

Module TraceTheory.

Import Eff Trace.

Lemma skipn_length_app {E} (t d : list E) : skipn (List.length t) (t ++ d) = d.
Proof. induction t; simpl; auto. Qed.

Lemma emitted_eq {W E A} (m : M W E A) w t o d :
  m w t = (o, t ++ d) -> emitted m w t = d.
Proof. unfold emitted. intros ->. apply skipn_length_app. Qed.

Lemma emitted_snd {W E A} (m : M W E A) w t d :
  snd (m w t) = t ++ d -> emitted m w t = d.
Proof. unfold emitted. intros ->. apply skipn_length_app. Qed.

Section Only.

Context {W E : Type}.
Variable P : E -> bool.

Lemma only_ret {A} (a : A) : only P (@ret W E A a).
Proof. intros w t. exists []. now rewrite app_nil_r. Qed.

Lemma only_raise {A} e : only P (@raise W E A e).
Proof. intros w t. exists []. now rewrite app_nil_r. Qed.

Lemma only_observe {A} (answer : W -> list E -> outcome A) :
  only P (observe answer).
Proof. intros w t. exists []. now rewrite app_nil_r. Qed.

Lemma only_emit ev : P ev = true -> only P (@emit W E ev).
Proof. intros H w t. exists [ev]. cbn. now rewrite H. Qed.

Lemma only_perform {A} ev (answer : W -> list E -> outcome A) :
  P ev = true -> only P (perform ev answer).
Proof. intros H w t. exists [ev]. cbn. now rewrite H. Qed.

Lemma only_bind {A B} (m : M W E A) (k : A -> M W E B) :
  only P m -> (forall a, only P (k a)) -> only P (bind m k).
Proof.
  intros Hm Hk w t. destruct (Hm w t) as (d1 & E1 & F1). unfold bind.
  destruct (m w t) as [[a | e] t1]; cbn [snd] in *; subst t1.
  - destruct (Hk a w (t ++ d1)) as (d2 & E2 & F2).
    exists (d1 ++ d2). rewrite E2, app_assoc, forallb_app, F1, F2. now split.
  - now exists d1.
Qed.

Lemma only_try_except {A} (body : M W E A) catches handler :
  only P body -> (forall e, only P (handler e)) ->
  only P (try_except body catches handler).
Proof.
  intros Hb Hh w t. destruct (Hb w t) as (d1 & E1 & F1). unfold try_except.
  destruct (body w t) as [[a | e] t1]; cbn [snd] in *; subst t1.
  - now exists d1.
  - destruct (catches e); [|now exists d1].
    destruct (Hh e w (t ++ d1)) as (d2 & E2 & F2).
    exists (d1 ++ d2). rewrite E2, app_assoc, forallb_app, F1, F2. now split.
Qed.

Lemma only_for_each {A} (xs : list A) (body : A -> M W E unit) :
  (forall x, only P (body x)) -> only P (for_each xs body).
Proof.
  intro Hb. induction xs as [|x xs IH]; cbn [for_each].
  - apply only_ret.
  - apply only_bind; auto.
Qed.

Lemma only_if {A} (c : bool) (m1 m2 : M W E A) :
  only P m1 -> only P m2 -> only P (if c then m1 else m2).
Proof. now destruct c. Qed.

End Only.

Section Rules.

Context {W E : Type}.
Variable visible : E -> bool.
Variable good : W -> Prop.

#[local] Abbreviation total := (total visible good).
#[local] Abbreviation plays := (plays visible good).
#[local] Abbreviation within := (within visible good).

Lemma total_ret {A} (a : A) (Q : A -> Prop) : Q a -> total (ret a) [] Q.
Proof. intros H w t _. exists a, []. now rewrite app_nil_r. Qed.

Lemma total_ret_any {A} (a : A) : total (ret a) [] (fun _ => True).
Proof. now apply total_ret. Qed.

Lemma total_emit_hidden ev :
  visible ev = false -> total (emit ev) [] (fun _ => True).
Proof.
  intros H w t _. exists tt, [ev]. split; [reflexivity|].
  cbn. now rewrite H.
Qed.

Lemma total_bind {A B} (m : M W E A) (k : A -> M W E B) s1 s2 Q1 Q2 :
  total m s1 Q1 -> (forall a, Q1 a -> total (k a) s2 Q2) ->
  total (bind m k) (s1 ++ s2) Q2.
Proof.
  intros Hm Hk w t Hw. destruct (Hm w t Hw) as (a & d1 & E1 & F1 & Ha).
  destruct (Hk a Ha w (t ++ d1) Hw) as (b & d2 & E2 & F2 & Hb).
  exists b, (d1 ++ d2). unfold bind. rewrite E1, E2, app_assoc.
  split; [reflexivity|]. now rewrite filter_app, F1, F2.
Qed.

Lemma total_bind_silent {A B} (m : M W E A) (k : A -> M W E B) Q1 Q2 :
  total m [] Q1 -> (forall a, total (k a) [] Q2) -> total (bind m k) [] Q2.
Proof.
  intros Hm Hk. change (@nil E) with (@nil E ++ []).
  eapply total_bind; eauto.
Qed.

Lemma plays_total {A} (m : M W E A) s Q :
  total m s Q -> plays m s (S (List.length s)).
Proof.
  intros Hm w t Hw. destruct (Hm w t Hw) as (a & d & -> & F & _).
  exists d. split; [reflexivity|]. exact F.
Qed.

Lemma plays_raise {A} e : plays (@raise W E A e) [] 0.
Proof.
  intros w t _. exists []. split; [cbn; now rewrite app_nil_r|].
  cbn. exists 0%nat. split; [lia|reflexivity].
Qed.

Lemma plays_perform {A} ev (answer : W -> list E -> outcome A) :
  visible ev = true -> plays (perform ev answer) [ev] 1.
Proof.
  intros H w t _. exists [ev]. split; [reflexivity|].
  cbn. rewrite H. destruct (answer w t); [reflexivity|].
  exists 1%nat. split; [lia|reflexivity].
Qed.

Lemma plays_bind {A B} (m : M W E A) (k : A -> M W E B) s1 s2 g1 g2 :
  plays m s1 g1 -> (forall a, plays (k a) s2 g2) ->
  plays (bind m k) (s1 ++ s2) (Nat.min g1 (List.length s1 + g2)).
Proof.
  intros Hm Hk w t Hw. destruct (Hm w t Hw) as (d1 & E1 & F1).
  unfold bind. destruct (m w t) as [[a | e] t1]; cbn [fst snd] in *; subst t1.
  - destruct (Hk a w (t ++ d1) Hw) as (d2 & E2 & F2).
    exists (d1 ++ d2). rewrite E2, app_assoc. split; [reflexivity|].
    rewrite filter_app, F1.
    destruct (fst (k a w (t ++ d1))).
    + now rewrite F2.
    + destruct F2 as (n & Hn & ->). exists (List.length s1 + n)%nat.
      split; [rewrite length_app; lia|].
      now rewrite firstn_app_2.
  - exists d1. split; [reflexivity|].
    destruct F1 as (n & Hn & ->). exists n.
    split; [rewrite length_app; lia|].
    rewrite firstn_app. replace (n - List.length s1)%nat with 0%nat by lia.
    cbn. now rewrite app_nil_r.
Qed.

Lemma plays_bind_total {A B} (m : M W E A) (k : A -> M W E B) s1 s2 g2 Q :
  total m s1 Q -> (forall a, Q a -> plays (k a) s2 g2) ->
  plays (bind m k) (s1 ++ s2) (List.length s1 + g2).
Proof.
  intros Hm Hk w t Hw. destruct (Hm w t Hw) as (a & d1 & E1 & F1 & Ha).
  destruct (Hk a Ha w (t ++ d1) Hw) as (d2 & E2 & F2).
  exists (d1 ++ d2). unfold bind. rewrite E1, E2, app_assoc.
  split; [reflexivity|]. rewrite filter_app, F1.
  destruct (fst (k a w (t ++ d1))).
  - now rewrite F2.
  - destruct F2 as (n & Hn & ->). exists (List.length s1 + n)%nat.
    split; [rewrite length_app; lia|].
    now rewrite firstn_app_2.
Qed.

Lemma plays_if {A} (c : bool) (m1 m2 : M W E A) s s' g1 g2 :
  plays m1 s g1 -> plays m2 s' g2 -> s' = s ->
  plays (if c then m1 else m2) s (Nat.min g1 g2).
Proof.
  intros H1 H2 -> w t Hw.
  destruct c; [destruct (H1 w t Hw) as (d & E1 & F)
              |destruct (H2 w t Hw) as (d & E1 & F)];
    exists d; (split; [exact E1|]);
    (destruct (fst _); [exact F|]);
    destruct F as (n & Hn & F); exists n; (split; [lia|exact F]).
Qed.

Lemma plays_weaken {A} (m : M W E A) s s' g g' :
  plays m s g -> s = s' -> (g' <= g)%nat -> plays m s' g'.
Proof.
  intros Hm <- Hg w t Hw. destruct (Hm w t Hw) as (d & E1 & F).
  exists d. split; [exact E1|].
  destruct (fst (m w t)); [exact F|].
  destruct F as (n & Hn & F). exists n. split; [lia|exact F].
Qed.

Lemma within_silent {A} (m : M W E A) s Q : total m [] Q -> within m s.
Proof.
  intros Hm w t Hw. destruct (Hm w t Hw) as (a & d & E1 & F & _).
  exists d, 0%nat. rewrite E1. now split.
Qed.

Lemma within_bind {A B} (m : M W E A) (k : A -> M W E B) s1 s2 g :
  plays m s1 g -> (forall a, within (k a) s2) -> within (bind m k) (s1 ++ s2).
Proof.
  intros Hm Hk w t Hw. destruct (Hm w t Hw) as (d1 & E1 & F1).
  unfold bind. destruct (m w t) as [[a | e] t1]; cbn [fst snd] in *; subst t1.
  - destruct (Hk a w (t ++ d1) Hw) as (d2 & n & E2 & F2).
    exists (d1 ++ d2), (List.length s1 + n)%nat.
    rewrite E2, app_assoc. split; [reflexivity|].
    now rewrite filter_app, F1, F2, firstn_app_2.
  - destruct F1 as (n & Hn & F1). exists d1, n. split; [reflexivity|].
    rewrite F1, firstn_app. replace (n - List.length s1)%nat with 0%nat by lia.
    cbn. now rewrite app_nil_r.
Qed.

Lemma within_if {A} (c : bool) (m1 m2 : M W E A) s :
  within m1 s -> within m2 s -> within (if c then m1 else m2) s.
Proof. now destruct c. Qed.

Lemma within_eq {A} (m : M W E A) s s' : within m s -> s = s' -> within m s'.
Proof. now intros H <-. Qed.

Lemma plays_emitted {A} (m : M W E A) s g w t :
  plays m s g -> good w ->
  exists n, (g <= n)%nat /\ filter visible (emitted m w t) = firstn n s.
Proof.
  intros Hm Hw. destruct (Hm w t Hw) as (d & E1 & F).
  rewrite (emitted_snd _ _ _ _ E1). destruct (fst (m w t)).
  - exists (Nat.max g (List.length s)). split; [lia|].
    rewrite firstn_all2 by lia. exact F.
  - destruct F as (n & Hn & F). exists n. split; [lia|exact F].
Qed.

(** A [try] whose handler is silent, followed by something silent. *)
Lemma within_try_then {A B} (body : M W E A) catches handler
    (k : A -> M W E B) s g Q1 Q2 :
  plays body s g -> (forall e, total (handler e) [] Q1) ->
  (forall a, total (k a) [] Q2) ->
  within (bind (try_except body catches handler) k) s.
Proof.
  intros Hb Hh Hk w t Hw. destruct (Hb w t Hw) as (d1 & E1 & F1).
  unfold bind, try_except.
  destruct (body w t) as [[a | e] t1]; cbn [fst snd] in *; subst t1.
  - destruct (Hk a w (t ++ d1) Hw) as (b & d2 & E2 & F2 & _).
    exists (d1 ++ d2), (List.length s). rewrite E2, app_assoc.
    split; [reflexivity|].
    now rewrite filter_app, F1, F2, firstn_all, app_nil_r.
  - destruct F1 as (n & Hn & F1). destruct (catches e).
    + destruct (Hh e w (t ++ d1) Hw) as (a & d2 & E2 & F2 & _). rewrite E2.
      destruct (Hk a w ((t ++ d1) ++ d2) Hw) as (b & d3 & E3 & F3 & _).
      exists (d1 ++ d2 ++ d3), n. rewrite E3, !app_assoc.
      split; [reflexivity|].
      now rewrite !filter_app, F1, F2, F3, !app_nil_r.
    + exists d1, n. now split.
Qed.

End Rules.

Section Crashes.

Context {W E : Type}.
Variable visible : E -> bool.
Variable good : W -> Prop.

Lemma crashes_bind {A B} (m : M W E A) (k : A -> M W E B) e s :
  crashes visible good m e s -> crashes visible good (bind m k) e s.
Proof.
  intros Hm w t Hw. destruct (Hm w t Hw) as (d & E1 & F).
  exists d. unfold bind. now rewrite E1.
Qed.

Lemma crashes_bind_total {A B} (m : M W E A) (k : A -> M W E B) s1 s2 Q e :
  Trace.total visible good m s1 Q ->
  (forall a, Q a -> crashes visible good (k a) e s2) ->
  crashes visible good (bind m k) e (s1 ++ s2).
Proof.
  intros Hm Hk w t Hw. destruct (Hm w t Hw) as (a & d1 & E1 & F1 & Ha).
  destruct (Hk a Ha w (t ++ d1) Hw) as (d2 & E2 & F2).
  exists (d1 ++ d2). unfold bind. rewrite E1, E2, app_assoc.
  split; [reflexivity|]. now rewrite filter_app, F1, F2.
Qed.

Lemma crashes_eq {A} (m : M W E A) e s s' :
  crashes visible good m e s -> s = s' -> crashes visible good m e s'.
Proof. now intros H <-. Qed.

End Crashes.

End TraceTheory.

(** * Properties of the smoke test *)

Module TestTheory.

Import Py Eff Trace TestAllFeatures TestVocabulary PyTheory TraceTheory.

Section WithRepr.

Variable py_repr : pyval -> string.

Lemma call_request_of method endpoint data :
  (if String.eqb method "GET"
   then requests_get (BASE_URL ++ endpoint) 10
   else requests_post (BASE_URL ++ endpoint) data 10)
  = call (request_of method endpoint data).
Proof.
  unfold request_of, requests_get, requests_post.
  destruct (String.eqb method "GET"); reflexivity.
Qed.

(** The whole behaviour of one call, by the way the request ends. *)
Lemma test_endpoint_run method endpoint data expected w t :
  let r := request_of method endpoint data in
  test_endpoint py_repr method endpoint data expected w t =
  match inspect (server w t r) with
  | inl e =>
      if is_Exception e
      then (Ok (error_dict e),
            t ++ [Request r; Print (error_line method endpoint e)])
      else (Raise e, t ++ [Request r])
  | inr items =>
      let success := field items "success" PNone in
      (Ok (PDict items),
       t ++ Request r
         :: Print (status_line (if py_eq success expected then "OK" else "FAIL")
                     method endpoint)
         :: (if negb (truthy success) && truthy expected
             then [Print ("       Error: "
                          ++ py_str py_repr
                               (field items "error"
                                  (field items "message" (PStr "Unknown"))))]
             else []))
  end.
Proof.
  intro r. unfold test_endpoint.
  rewrite call_request_of. fold r.
  cbv beta iota zeta delta [try_except bind call perform response_json
                            observe print emit].
  destruct (server w t r) as [e | [v | e]] eqn:Hr; cbn [inspect].
  - destruct (is_Exception e); rewrite <- ?app_assoc; reflexivity.
  - destruct v;
      cbv beta iota zeta delta [get raise ret py_and py_not no_get is_Exception];
      rewrite <- ?app_assoc; try reflexivity.
    fold (field items "success" PNone).
    change (truthy (PBool ?b)) with b.
    destruct (truthy (field items "success" PNone)); cbn [negb andb].
    + reflexivity.
    + destruct (truthy expected); rewrite <- ?app_assoc; reflexivity.
  - destruct (is_Exception e); rewrite <- ?app_assoc; reflexivity.
Qed.




(** What one call adds to the trace and what it hands back. *)
Lemma test_endpoint_emitted method endpoint data expected w t :
  let r := request_of method endpoint data in
  let run := test_endpoint py_repr method endpoint data expected in
  match inspect (server w t r) with
  | inl e =>
      if is_Exception e
      then fst (run w t) = Ok (error_dict e)
           /\ emitted run w t = [Request r; Print (error_line method endpoint e)]
      else fst (run w t) = Raise e /\ emitted run w t = [Request r]
  | inr items =>
      let success := field items "success" PNone in
      fst (run w t) = Ok (PDict items)
      /\ emitted run w t =
         Request r
         :: Print (status_line (if py_eq success expected then "OK" else "FAIL")
                     method endpoint)
         :: (if negb (truthy success) && truthy expected
             then [Print ("       Error: "
                          ++ py_str py_repr
                               (field items "error"
                                  (field items "message" (PStr "Unknown"))))]
             else [])
  end.
Proof.
  intros r run. pose proof (test_endpoint_run method endpoint data expected w t) as H.
  cbv zeta in H. fold r run in H.
  destruct (inspect (server w t r)) as [e | items].
  - destruct (is_Exception e); rewrite H; split; try reflexivity;
      eapply emitted_eq; eassumption.
  - cbv zeta. rewrite H. split; [reflexivity|].
    eapply emitted_eq; eassumption.
Qed.

(** *** The order of requests and sleeps *)

Section Wire.

Variable good : world -> Prop.

#[local] Abbreviation total := (total on_the_wire good).
#[local] Abbreviation plays := (plays on_the_wire good).

Lemma total_print line : total (print line) [] (fun _ => True).
Proof. now apply total_emit_hidden. Qed.

Lemma total_get_dict items key default :
  total (get (PDict items) key default) [] (fun _ => True).
Proof. apply total_ret_any. Qed.

Lemma total_py_and a b :
  total b [] (fun _ => True) -> total (py_and a b) [] (fun _ => True).
Proof.
  intro H. unfold py_and. destruct (truthy a); [exact H|apply total_ret_any].
Qed.

Lemma total_if {A} (c : bool) (m1 m2 : M world event A) s :
  total m1 s (fun _ => True) -> total m2 [] (fun _ => True) -> s = [] ->
  total (if c then m1 else m2) [] (fun _ => True).
Proof. intros H1 H2 ->. now destruct c. Qed.

Lemma plays_test_endpoint method endpoint data expected :
  plays (test_endpoint py_repr method endpoint data expected)
    [Request (request_of method endpoint data)] 1.
Proof.
  intros w t _.
  pose proof (test_endpoint_run method endpoint data expected w t) as H.
  cbv zeta in H. rewrite H.
  destruct (inspect _) as [e | items]; [destruct (is_Exception e)|];
    eexists; (split; [reflexivity|]); cbn [fst].
  - reflexivity.
  - exists 1%nat. split; [cbn; lia|reflexivity].
  - cbn. now destruct (negb _ && _).
Qed.

Lemma plays_time_sleep seconds : plays (time_sleep seconds) [Sleep seconds] 1.
Proof. now apply plays_perform. Qed.

Lemma plays_get obj key default : plays (get obj key default) [] 0.
Proof.
  destruct obj; try apply plays_raise.
  eapply plays_weaken; [eapply plays_total, total_ret_any|reflexivity|lia].
Qed.

Lemma plays_subscript obj key : plays (subscript obj key) [] 0.
Proof.
  destruct obj; try apply plays_raise.
  cbn. destruct (assoc key items); [|apply plays_raise].
  eapply plays_weaken; [eapply plays_total, total_ret_any|reflexivity|lia].
Qed.

Lemma plays_len obj : plays (len obj) [] 0.
Proof.
  destruct obj; try apply plays_raise;
    (eapply plays_weaken; [eapply plays_total, total_ret_any|reflexivity|lia]).
Qed.

Lemma plays_py_and a b : plays b [] 0 -> plays (py_and a b) [] 0.
Proof.
  intro H. unfold py_and. destruct (truthy a); [exact H|].
  eapply plays_weaken; [eapply plays_total, total_ret_any|reflexivity|lia].
Qed.

End Wire.

Lemma total_test_endpoint method endpoint data expected :
  Trace.total on_the_wire uninterrupted
    (test_endpoint py_repr method endpoint data expected)
    [Request (request_of method endpoint data)] is_dict.
Proof.
  intros w t [Hw _].
  pose proof (test_endpoint_run method endpoint data expected w t) as H.
  cbv zeta in H. rewrite H. specialize (Hw t (request_of method endpoint data)).
  destruct (server w t _) as [e | [v | e]]; cbn [inspect raised] in *.
  - rewrite (Hw e eq_refl). eexists _, _.
    split; [reflexivity|]. split; [reflexivity|]. eexists; reflexivity.
  - destruct v; cbn [is_Exception no_get]; eexists _, _;
      (split; [reflexivity|]); (split; [|eexists; reflexivity]);
      try reflexivity.
    cbn. now destruct (negb _ && _).
  - rewrite (Hw e eq_refl). eexists _, _.
    split; [reflexivity|]. split; [reflexivity|]. eexists; reflexivity.
Qed.

Lemma total_time_sleep seconds :
  Trace.total on_the_wire uninterrupted (time_sleep seconds) [Sleep seconds]
    (fun _ => True).
Proof.
  intros w t [_ Hw]. unfold time_sleep, perform. rewrite Hw.
  eexists _, _. split; [reflexivity|]. split; [reflexivity|exact I].
Qed.

(** Walking through a script: a step that cannot fail in the worlds at
    hand is taken with [plays_bind_total], any other with
    [plays_bind]. *)
Ltac known_dict :=
  try match goal with
      | H : is_dict _ |- _ => destruct H as [? ->]
      end.

Ltac silent :=
  lazymatch goal with
  | |- Trace.total _ _ (bind _ _) _ _ =>
      eapply total_bind; [silent | intros ? ?; known_dict; silent]
  | |- Trace.total _ _ (print _) _ _ => apply total_print
  | |- Trace.total _ _ (ret _) _ _ => apply total_ret_any
  | |- Trace.total _ _ (test_endpoint _ _ _ _ _) _ _ =>
      apply total_test_endpoint
  | |- Trace.total _ _ (time_sleep _) _ _ => apply total_time_sleep
  | |- Trace.total _ _ (get (PDict _) _ _) _ _ => apply total_get_dict
  | |- Trace.total _ _ (py_and _ _) _ _ => apply total_py_and; silent
  | |- Trace.total _ _ (if _ then _ else _) _ _ =>
      eapply total_if; [silent | silent | reflexivity]
  end.

Ltac play :=
  lazymatch goal with
  | |- Trace.plays _ _ (bind _ _) _ _ =>
      first [ eapply plays_bind_total;
              [solve [silent] | intros ? ?; known_dict; play]
            | eapply plays_bind; [play | intro; play] ]
  | |- Trace.plays _ _ (if _ then _ else _) _ _ =>
      eapply plays_if; [play | play | reflexivity]
  | |- Trace.plays _ _ (py_and _ _) _ _ => apply plays_py_and; play
  | |- Trace.plays _ _ (get _ _ _) _ _ => apply plays_get
  | |- Trace.plays _ _ (subscript _ _) _ _ => apply plays_subscript
  | |- Trace.plays _ _ (len _) _ _ => apply plays_len
  | |- Trace.plays _ _ (test_endpoint _ _ _ _ _) _ _ =>
      first [ eapply plays_total; solve [silent] | apply plays_test_endpoint ]
  | |- Trace.plays _ _ (time_sleep _) _ _ =>
      first [ eapply plays_total; solve [silent] | apply plays_time_sleep ]
  | |- Trace.plays _ _ _ _ _ => eapply plays_total; solve [silent]
  end.

Ltac play_script :=
  eapply plays_weaken;
  [ play | vm_compute; reflexivity | vm_compute; apply Nat.leb_le; reflexivity ].

Lemma word_plays good :
  plays on_the_wire good (test_word_features py_repr) word_script 1.
Proof. unfold test_word_features. play_script. Qed.

Lemma word_plays_uninterrupted :
  plays on_the_wire uninterrupted (test_word_features py_repr) word_script 19.
Proof. unfold test_word_features. play_script. Qed.

Lemma excel_plays good :
  plays on_the_wire good (test_excel_features py_repr) excel_script 1.
Proof. unfold test_excel_features. play_script. Qed.

Lemma excel_plays_uninterrupted :
  plays on_the_wire uninterrupted (test_excel_features py_repr) excel_script 40.
Proof. unfold test_excel_features. play_script. Qed.

Lemma powerpoint_plays good :
  plays on_the_wire good (test_powerpoint_features py_repr)
    powerpoint_script 1.
Proof. unfold test_powerpoint_features. play_script. Qed.

Lemma powerpoint_plays_uninterrupted :
  plays on_the_wire uninterrupted (test_powerpoint_features py_repr)
    powerpoint_script 11.
Proof. unfold test_powerpoint_features. play_script. Qed.

Lemma plays_test_health good :
  plays on_the_wire good (test_health py_repr) [Request health_check] 1.
Proof.
  unfold test_health.
  eapply plays_weaken;
    [eapply plays_bind_total; [apply total_print|intros ? _];
     apply plays_test_endpoint
    |reflexivity|cbn; lia].
Qed.

Lemma main_within good : within on_the_wire good (main py_repr) main_script.
Proof.
  unfold main.
  eapply within_eq.
  - do 3 (eapply within_bind; [eapply plays_total, total_print | intro]).
    eapply within_bind; [apply plays_test_health | intro health].
    eapply within_bind; [apply plays_get | intro success].
    apply within_if; [eapply within_silent, total_print|].
    eapply within_bind; [apply plays_get | intro].
    eapply within_bind; [eapply plays_total, total_print | intro].
    eapply within_bind; [apply plays_get | intro].
    eapply within_bind; [eapply plays_total, total_print | intro].
    eapply within_try_then.
    + eapply plays_bind; [apply word_plays | intro].
      eapply plays_bind; [apply plays_time_sleep | intro].
      eapply plays_bind; [apply excel_plays | intro].
      eapply plays_bind; [apply plays_time_sleep | intro].
      apply powerpoint_plays.
    + intro. apply total_print.
    + intro. eapply total_bind_silent; [apply total_print | intro].
      eapply total_bind_silent; [apply total_print | intro].
      apply total_print.
  - vm_compute. reflexivity.
Qed.

Lemma in_requests r d : In r (requests d) <-> In (Request r) d.
Proof.
  induction d as [|[line | r' | n] d IH]; cbn.
  - tauto.
  - rewrite IH. split; [tauto|]. intros [H | H]; [discriminate|exact H].
  - rewrite IH. split; intros [H | H]; auto; [left; congruence|].
    left. congruence.
  - rewrite IH. split; [tauto|]. intros [H | H]; [discriminate|exact H].
Qed.

Lemma in_firstn {A} (x : A) n l : In x (firstn n l) -> In x l.
Proof.
  revert l. induction n; intros [|y l]; cbn; try tauto.
  intros [H | H]; auto.
Qed.

Lemma main_script_respects :
  forallb (fun ev => match ev with Request r => respects r | _ => true end)
          main_script = true.
Proof. vm_compute. reflexivity. Qed.

(** C4.  In each of the three application tests what goes over the
    wire is, as far as the run gets, the launch request, then a sleep
    of one second, then the create request, then the rest of the
    script: the launch request always goes out first, and where nothing
    but an [Exception] ever interrupts, the sleep and the create
    request follow whatever the launch request came to. *)
Theorem launch_then_sleep_then_create w t :
  let word := wire (emitted (test_word_features py_repr) w t) in
  let excel := wire (emitted (test_excel_features py_repr) w t) in
  let powerpoint := wire (emitted (test_powerpoint_features py_repr) w t) in
  ((exists n, (1 <= n)%nat
      /\ word = firstn n (opening "word" ++ skipn 3 word_script))
   /\ (uninterrupted w -> firstn 3 word = opening "word"))
  /\ ((exists n, (1 <= n)%nat
         /\ excel = firstn n (opening "excel" ++ skipn 3 excel_script))
      /\ (uninterrupted w -> firstn 3 excel = opening "excel"))
  /\ ((exists n, (1 <= n)%nat
         /\ powerpoint
            = firstn n (opening "powerpoint" ++ skipn 3 powerpoint_script))
      /\ (uninterrupted w -> firstn 3 powerpoint = opening "powerpoint")).
Proof.
  intros word excel powerpoint.
  assert (R : forall (m : M world event unit) s g app,
             plays on_the_wire any_world m s 1 ->
             plays on_the_wire uninterrupted m s g -> (3 <= g)%nat ->
             s = opening app ++ skipn 3 s ->
             (exists n, (1 <= n)%nat
                /\ wire (emitted m w t) = firstn n (opening app ++ skipn 3 s))
             /\ (uninterrupted w ->
                 firstn 3 (wire (emitted m w t)) = opening app)).
  { intros m s g app H1 H2 Hg Hs. split.
    - destruct (plays_emitted _ _ _ _ _ w t H1 I) as (n & Hn & F).
      exists n. split; [exact Hn|]. rewrite <- Hs. exact F.
    - intro Hw. destruct (plays_emitted _ _ _ _ _ w t H2 Hw) as (n & Hn & F).
      unfold wire. rewrite F, Hs, firstn_firstn.
      replace (Nat.min 3 n) with 3%nat by lia. reflexivity. }
  repeat split.
  - eapply R; [apply word_plays|apply word_plays_uninterrupted|lia|vm_compute; reflexivity].
  - eapply R; [apply word_plays|apply word_plays_uninterrupted|lia|vm_compute; reflexivity].
  - eapply R; [apply excel_plays|apply excel_plays_uninterrupted|lia|vm_compute; reflexivity].
  - eapply R; [apply excel_plays|apply excel_plays_uninterrupted|lia|vm_compute; reflexivity].
  - eapply R; [apply powerpoint_plays|apply powerpoint_plays_uninterrupted
              |lia|vm_compute; reflexivity].
  - eapply R; [apply powerpoint_plays|apply powerpoint_plays_uninterrupted
              |lia|vm_compute; reflexivity].
Qed.

(** In a world that does not interrupt, a request among the first [g]
    of the script is sent. *)
Lemma sent (m : M world event unit) s g i r w t :
  plays on_the_wire uninterrupted m s g -> uninterrupted w ->
  nth_error s i = Some (Request r) -> (i < g)%nat ->
  In r (requests (emitted m w t)).
Proof.
  intros Hm Hw Hi Hg.
  destruct (plays_emitted _ _ _ _ _ w t Hm Hw) as (n & Hn & F).
  apply in_requests.
  assert (H : In (Request r) (filter on_the_wire (emitted m w t))).
  { rewrite F. apply nth_error_In with i.
    rewrite nth_error_firstn.
    destruct (Nat.ltb_spec i n); [exact Hi|lia]. }
  apply filter_In in H. tauto.
Qed.

(** C5.  Every request the script sends to [/word/write] is a POST
    whose JSON body is a dict with the key [text], every request to
    [/excel/set_formula] a POST whose body has the keys [cell] and
    [formula], every request to [/powerpoint/add_slide] a POST whose
    body has the key [layout]; and where nothing but an [Exception]
    ever interrupts, each application test does send such a request. *)
Theorem named_request_shapes w :
  Forall (fun r => respects r = true) (requests (snd (main py_repr w [])))
  /\ (forall t, uninterrupted w ->
      existsb (has_shape "/word/write" ["text"])
        (requests (emitted (test_word_features py_repr) w t)) = true
      /\ existsb (has_shape "/excel/set_formula" ["cell"; "formula"])
           (requests (emitted (test_excel_features py_repr) w t)) = true
      /\ existsb (has_shape "/powerpoint/add_slide" ["layout"])
           (requests (emitted (test_powerpoint_features py_repr) w t)) = true).
Proof.
  split.
  - apply Forall_forall. intros r Hr. apply in_requests in Hr.
    destruct (main_within any_world w [] I) as (d & n & E1 & F).
    cbn [app] in E1. rewrite E1 in Hr.
    assert (H : In (Request r) (filter on_the_wire d))
      by (apply filter_In; auto).
    rewrite F in H. apply in_firstn in H.
    pose proof main_script_respects as A.
    rewrite forallb_forall in A. exact (A _ H).
  - intros t Hw. repeat split; apply existsb_exists.
    + eexists. split.
      * eapply (sent _ _ _ 3); [apply word_plays_uninterrupted|exact Hw| |lia].
        vm_compute. reflexivity.
      * vm_compute. reflexivity.
    + eexists. split.
      * eapply (sent _ _ _ 10);
          [apply excel_plays_uninterrupted|exact Hw| |lia].
        vm_compute. reflexivity.
      * vm_compute. reflexivity.
    + eexists. split.
      * eapply (sent _ _ _ 3);
          [apply powerpoint_plays_uninterrupted|exact Hw| |lia].
        vm_compute. reflexivity.
      * vm_compute. reflexivity.
Qed.

Lemma inspect_inr r items :
  inspect r = inr items -> r = Responded (Ok (PDict items)).
Proof.
  destruct r as [e | [v | e]]; cbn; try discriminate.
  destruct v; cbn; try discriminate. congruence.
Qed.

(** [main] up to the point where the health check has been judged. *)
Lemma main_run w :
  main py_repr w [] =
  match inspect (server w banner health_check) with
  | inl e =>
      if is_Exception e
      then (Ok tt,
            banner ++ [Request health_check;
                       Print (error_line "GET" "/health" e);
                       Print (nl ++ "[ERROR] Server not running! "
                              ++ "Please start the server first.")])
      else (Raise e, banner ++ [Request health_check])
  | inr items =>
      let run :=
        test_endpoint py_repr "GET" "/health" PNone (PBool true) w banner in
      if negb (truthy (field items "success" PNone))
      then (Ok tt,
            snd run ++ [Print (nl ++ "[ERROR] Server not running! "
                               ++ "Please start the server first.")])
      else main py_repr w []
  end.
Proof.
  pose proof (test_endpoint_run "GET" "/health" PNone (PBool true) w banner)
    as H. cbv zeta in H. change (request_of "GET" "/health" PNone)
    with health_check in H.
  destruct (inspect (server w banner health_check)) as [e | items] eqn:Hi.
  - unfold main, test_health.
    cbv beta iota zeta delta [bind print emit].
    change ((((([] ++ _) ++ _) ++ _) ++ _)) with banner. rewrite H.
    destruct (is_Exception e); [|reflexivity].
    cbv beta iota zeta delta [bind print emit get ret error_dict].
    cbn [assoc String.eqb Ascii.eqb Bool.eqb truthy py_not negb].
    rewrite <- app_assoc. reflexivity.
  - cbv zeta. destruct (negb (truthy (field items "success" PNone))) eqn:Hs;
      [|reflexivity].
    unfold main at 1, test_health.
    cbv beta iota zeta delta [bind print emit].
    change ((((([] ++ _) ++ _) ++ _) ++ _)) with banner. rewrite H.
    cbv beta iota zeta delta [bind print emit get ret snd].
    fold (field items "success" PNone).
    change (truthy (py_not ?v)) with (negb (truthy v)). rewrite Hs.
    reflexivity.
Qed.

(** C9.  Any request of [main] other than the health check is sent
    only after the health check came back as a JSON object with a
    truthy [success]; when the health check fails, [main] prints its
    error and returns, the health check being the only request of the
    run. *)
Theorem health_gate w :
  let run := main py_repr w [] in
  (forall r, In r (requests (snd run)) -> r <> health_check ->
     exists items,
       server w banner health_check = Responded (Ok (PDict items))
       /\ truthy (field items "success" PNone) = true)
  /\ (health_fails w = true ->
      fst run = Ok tt
      /\ requests (snd run) = [health_check]
      /\ last (snd run) (Print "")
         = Print (nl ++ "[ERROR] Server not running! "
                  ++ "Please start the server first.")).
Proof.
  intro run. subst run. rewrite (main_run w). unfold health_fails.
  pose proof (test_endpoint_run "GET" "/health" PNone (PBool true) w banner)
    as H. cbv zeta in H. change (request_of "GET" "/health" PNone)
    with health_check in H.
  destruct (inspect (server w banner health_check)) as [e | items] eqn:Hi.
  - destruct (is_Exception e); (split; [|intro G; try discriminate G]).
    + intros r [<- | []] Hr. now elim Hr.
    + repeat split.
    + intros r [<- | []] Hr. now elim Hr.
  - cbv zeta. rewrite H.
    destruct (negb (truthy (field items "success" PNone))) eqn:Hs;
      (split; [|intro G; try discriminate G]).
    + cbn [snd]. rewrite <- app_assoc. intros r [<- | Hr] Hne; [now elim Hne|].
      exfalso. cbn in Hr.
      destruct (py_eq _ _), (truthy (PBool true)); cbn in Hr; tauto.
    + cbn [snd fst]. rewrite <- app_assoc. repeat split.
    + intros _ _ _. exists items. split; [now apply inspect_inr|].
      now destruct (truthy _).
Qed.

(** *** Further properties of the script *)

Lemma main_requests_in_script w r :
  In r (requests (snd (main py_repr w []))) -> In (Request r) main_script.
Proof.
  intro Hr. apply in_requests in Hr.
  destruct (main_within any_world w [] I) as (d & n & E1 & F).
  cbn [app] in E1. rewrite E1 in Hr.
  assert (H : In (Request r) (filter on_the_wire d))
    by (apply filter_In; auto).
  rewrite F in H. now apply in_firstn in H.
Qed.

(** X1.  Whatever the server and the user do, every request [main]
    sends goes to [http://127.0.0.1:8765/...] and carries a timeout of
    ten seconds. *)
Theorem requests_stay_local w :
  Forall (fun r => local r = true) (requests (snd (main py_repr w []))).
Proof.
  apply Forall_forall. intros r Hr. apply main_requests_in_script in Hr.
  assert (A : forallb (fun ev => match ev with
                                 | Request r => local r
                                 | _ => true
                                 end) main_script = true)
    by (vm_compute; reflexivity).
  rewrite forallb_forall in A. exact (A _ Hr).
Qed.

Lemma firstn_split {A} (l s before after : list A) (x : A) n :
  l = firstn n s -> l = before ++ x :: after ->
  before = firstn (List.length before) s
  /\ nth_error s (List.length before) = Some x.
Proof.
  intros -> H.
  assert (L : (List.length before < n)%nat).
  { destruct (Nat.lt_ge_cases (List.length before) n) as [L | L]; [exact L|].
    apply (f_equal (@List.length A)) in H.
    rewrite length_firstn, length_app in H. cbn in H. lia. }
  split.
  - apply (f_equal (firstn (List.length before))) in H.
    rewrite firstn_firstn, firstn_app, firstn_all, Nat.sub_diag in H.
    cbn in H. rewrite app_nil_r in H.
    replace (Nat.min (List.length before) n) with (List.length before) in H
      by lia.
    now symmetry.
  - apply (f_equal (fun l => nth_error l (List.length before))) in H.
    rewrite nth_error_firstn, nth_error_app2, Nat.sub_diag in H by lia.
    cbn [nth_error] in H.
    destruct (Nat.ltb_spec (List.length before) n); [exact H|lia].
Qed.

(** X2.  [main] runs the applications in turn: what it puts on the
    wire is, as far as the run gets, the health check, the Word script,
    a sleep of one second, the Excel script, a sleep of one second, the
    PowerPoint script.  So no Excel request is sent before Word has
    been told to close, and no PowerPoint request before Excel has been
    told to close. *)
Theorem applications_in_turn w :
  let sent := wire (snd (main py_repr w [])) in
  (exists n,
      sent = firstn n (Request health_check
                         :: word_script ++ Sleep 1
                         :: excel_script ++ Sleep 1
                         :: powerpoint_script))
  /\ (forall before r after,
        sent = before ++ Request r :: after ->
        (concerns "excel" r = true -> In (closing "word") before)
        /\ (concerns "powerpoint" r = true -> In (closing "excel") before)).
Proof.
  intro sent.
  destruct (main_within any_world w [] I) as (d & n & E1 & F).
  cbn [app] in E1. subst sent. rewrite E1. unfold wire.
  split.
  - exists n. rewrite F.
    assert (S : main_script
                = Request health_check
                    :: word_script ++ Sleep 1
                    :: excel_script ++ Sleep 1 :: powerpoint_script)
      by (vm_compute; reflexivity).
    rewrite S. reflexivity.
  - intros before r after H.
    destruct (firstn_split _ _ _ _ _ _ F H) as [Hb Hx].
    assert (L : (List.length before < List.length main_script)%nat)
      by (apply nth_error_Some; congruence).
    assert (T : forallb
                  (fun i =>
                     match nth_error main_script i with
                     | Some (Request r) =>
                         implb (concerns "excel" r) (20 <? i)%nat
                         && implb (concerns "powerpoint" r) (62 <? i)%nat
                     | _ => true
                     end)
                  (seq 0 (List.length main_script)) = true)
      by (vm_compute; reflexivity).
    rewrite forallb_forall in T.
    specialize (T (List.length before)). rewrite Hx in T.
    assert (C : implb (concerns "excel" r) (20 <? List.length before)%nat
                && implb (concerns "powerpoint" r)
                     (62 <? List.length before)%nat = true)
      by (apply T, in_seq; lia).
    apply andb_prop in C. destruct C as [C1 C2].
    assert (P : forall i ev,
               nth_error main_script i = Some ev ->
               (i < List.length before)%nat -> In ev before).
    { intros i ev Hi Hlt. rewrite Hb. apply nth_error_In with i.
      rewrite nth_error_firstn.
      destruct (Nat.ltb_spec i (List.length before)); [exact Hi|lia]. }
    split; intro Hc.
    + rewrite Hc in C1. cbn [implb] in C1. apply Nat.ltb_lt in C1.
      apply (P 20%nat); [vm_compute; reflexivity|exact C1].
    + rewrite Hc in C2. cbn [implb] in C2. apply Nat.ltb_lt in C2.
      apply (P 62%nat); [vm_compute; reflexivity|exact C2].
Qed.

(** X3.  An application test that returns normally has sent its whole
    script, from the launch request to the request that closes the
    document without saving it. *)
Theorem normal_return_means_closed w t :
  (fst (test_word_features py_repr w t) = Ok tt ->
   wire (emitted (test_word_features py_repr) w t) = word_script
   /\ last (wire (emitted (test_word_features py_repr) w t)) (Sleep 0)
      = closing "word")
  /\ (fst (test_excel_features py_repr w t) = Ok tt ->
      wire (emitted (test_excel_features py_repr) w t) = excel_script
      /\ last (wire (emitted (test_excel_features py_repr) w t)) (Sleep 0)
         = closing "excel")
  /\ (fst (test_powerpoint_features py_repr w t) = Ok tt ->
      wire (emitted (test_powerpoint_features py_repr) w t)
        = powerpoint_script
      /\ last (wire (emitted (test_powerpoint_features py_repr) w t)) (Sleep 0)
         = closing "powerpoint").
Proof.
  assert (R : forall (m : M world event unit) s,
             plays on_the_wire any_world m s 1 ->
             fst (m w t) = Ok tt -> wire (emitted m w t) = s).
  { intros m s Hm Hr. destruct (Hm w t I) as (d & E1 & F).
    rewrite Hr in F. now rewrite (emitted_snd _ _ _ _ E1). }
  repeat split.
  - now apply R; [apply word_plays|].
  - rewrite (R _ _ (word_plays _) H). vm_compute. reflexivity.
  - now apply R; [apply excel_plays|].
  - rewrite (R _ _ (excel_plays _) H). vm_compute. reflexivity.
  - now apply R; [apply powerpoint_plays|].
  - rewrite (R _ _ (powerpoint_plays _) H). vm_compute. reflexivity.
Qed.


(** [main] from the point where a health check that passed has been
    reported. *)
Lemma main_started w items :
  server w banner health_check = Responded (Ok (PDict items)) ->
  truthy (field items "success" PNone) = true ->
  main py_repr w [] =
  bind (try_except (application_tests py_repr) is_KeyboardInterrupt
          (fun _ => print (nl ++ nl ++ "[Interrupted by user]")))
       (fun _ =>
          bind (print (nl ++ str_mul "=" 60)) (fun _ =>
          bind (print "All tests completed!") (fun _ =>
          print (str_mul "=" 60))))
       w (greeting py_repr items).
Proof.
  intros Hr Hs.
  pose proof (test_endpoint_run "GET" "/health" PNone (PBool true) w banner)
    as H. cbv zeta in H. change (request_of "GET" "/health" PNone)
    with health_check in H. rewrite Hr in H. cbn [inspect] in H.
  rewrite Hs in H. cbn [negb andb] in H.
  unfold main at 1, test_health.
  cbv beta iota zeta delta [bind print emit].
  change ((((([] ++ _) ++ _) ++ _) ++ _)) with banner. rewrite H.
  cbv beta iota zeta delta [get ret].
  fold (field items "success" PNone). fold (field items "status" PNone).
  fold (field items "version" PNone).
  change (truthy (py_not ?v)) with (negb (truthy v)). rewrite Hs.
  cbn [negb]. unfold greeting. rewrite <- ?app_assoc. reflexivity.
Qed.

Lemma is_KeyboardInterrupt_eq e :
  is_KeyboardInterrupt e = true <-> e = KeyboardInterrupt.
Proof. destruct e; cbn; split; congruence. Qed.

(** X5.  Once the health check has passed, a [KeyboardInterrupt]
    that ends the application tests, raised inside the [try] by a
    request, a decoding or a sleep, is caught: [main] prints the
    interruption notice and then, like a run that went through, the
    closing lines, and returns.  Any other exception that ends them
    leaves [main] at once, the closing lines unprinted. *)
Theorem interrupt_is_absorbed w items :
  server w banner health_check = Responded (Ok (PDict items)) ->
  truthy (field items "success" PNone) = true ->
  let tests := application_tests py_repr w (greeting py_repr items) in
  let run := main py_repr w [] in
  (fst tests = Ok tt -> run = (Ok tt, snd tests ++ farewell))
  /\ (fst tests = Raise KeyboardInterrupt ->
      run = (Ok tt, snd tests ++ interrupted :: farewell))
  /\ (forall e, fst tests = Raise e -> e <> KeyboardInterrupt ->
      run = (Raise e, snd tests)).
Proof.
  intros Hr Hs. cbv zeta. rewrite (main_started w items Hr Hs).
  cbv beta iota zeta delta [bind try_except print emit].
  destruct (application_tests py_repr w (greeting py_repr items))
    as [[[] | e] t']; cbn [fst snd].
  - rewrite <- ?app_assoc. repeat split; try discriminate.
  - destruct (is_KeyboardInterrupt e) eqn:He.
    + apply is_KeyboardInterrupt_eq in He. subst e.
      rewrite <- ?app_assoc.
      repeat split; try discriminate.
      intros e C Hne. injection C as <-. now elim Hne.
    + repeat split; try discriminate.
      * intro C. injection C as ->. discriminate He.
      * intros e' C _. now injection C as ->.
Qed.

Lemma total_test_endpoint_careless v method endpoint data expected :
  Trace.total on_the_wire (careless v)
    (test_endpoint py_repr method endpoint data expected)
    [Request (request_of method endpoint data)] (shows v).
Proof.
  intros w t [Hw _].
  destruct (Hw t (request_of method endpoint data)) as (items & Hr & Hs & Hi).
  pose proof (test_endpoint_run method endpoint data expected w t) as H.
  cbv zeta in H. rewrite Hr in H. cbn [inspect] in H.
  rewrite Hs in H. cbn [negb andb] in H. rewrite H.
  eexists _, _. split; [reflexivity|]. split; [reflexivity|].
  exists items. auto.
Qed.

Lemma total_time_sleep_careless v seconds :
  Trace.total on_the_wire (careless v) (time_sleep seconds) [Sleep seconds]
    (fun _ => True).
Proof.
  intros w t [_ Hw]. unfold time_sleep, perform. rewrite Hw.
  eexists _, _. split; [reflexivity|]. split; [reflexivity|exact I].
Qed.

Lemma len_unsized v :
  unsized v = true -> len v = raise (no_len v).
Proof. destruct v; intro H; try discriminate H; reflexivity. Qed.

(** The Word test against a server whose screenshot carries something
    [len] does not accept. *)
Lemma word_crashes v :
  truthy v = true -> unsized v = true ->
  crashes on_the_wire (careless v) (test_word_features py_repr)
    (no_len v) (removelast word_script).
Proof.
  intros Hv Hu. unfold test_word_features. eapply crashes_eq.
  - repeat (eapply crashes_bind_total;
            [solve [ apply total_print
                   | apply total_test_endpoint_careless
                   | apply total_time_sleep_careless ]
            | intros ? ?]).
    match goal with
    | H : shows _ ?a |- crashes _ _ (bind (get ?a _ _) _) _ _ =>
        destruct H as (items & -> & Hs & Hi)
    end.
    intros w t _. exists [].
    cbv beta iota zeta delta [bind get ret py_and subscript].
    fold (field items "success" PNone). rewrite Hs, Hi, Hv.
    cbv beta iota. rewrite (len_unsized _ Hu), app_nil_r.
    split; reflexivity.
  - vm_compute. reflexivity.
Qed.

(** X6.  Where the server reports success on every request and its
    screenshot carries an [image] that is truthy but has no length (a
    number, say), the Word test ends in the [TypeError] of [len]: the
    close request is never sent, and since [main] catches nothing but
    [KeyboardInterrupt] the error ends the whole run. *)
Theorem malformed_screenshot_crashes v w t :
  truthy v = true -> unsized v = true -> careless v w ->
  fst (test_word_features py_repr w t) = Raise (no_len v)
  /\ wire (emitted (test_word_features py_repr) w t) = removelast word_script
  /\ ~ In (closing "word") (emitted (test_word_features py_repr) w t)
  /\ fst (main py_repr w []) = Raise (no_len v).
Proof.
  intros Hv Hu Hw.
  assert (C : forall t,
             fst (test_word_features py_repr w t) = Raise (no_len v)
             /\ wire (emitted (test_word_features py_repr) w t)
                = removelast word_script).
  { intro t'. destruct (word_crashes v Hv Hu w t' Hw) as (d & E1 & F).
    rewrite (emitted_eq _ _ _ _ _ E1), E1. auto. }
  destruct (C t) as [C1 C2]. repeat split; [exact C1|exact C2| |].
  - intro H.
    assert (H' : In (closing "word")
                   (wire (emitted (test_word_features py_repr) w t)))
      by (apply filter_In; auto).
    rewrite C2 in H'. vm_compute in H'.
    repeat (destruct H' as [H' | H']; [discriminate H'|]). exact H'.
  - destruct Hw as [Hs Hi].
    destruct (Hs banner health_check) as (items & Hr & Ht & _).
    rewrite (main_started w items Hr Ht).
    cbv beta iota zeta delta [bind try_except application_tests].
    destruct (C (greeting py_repr items)) as [C3 _].
    destruct (test_word_features py_repr w (greeting py_repr items))
      as [o t']. cbn [fst] in C3. subst o. reflexivity.
Qed.

Lemma application_tests_plays good :
  plays on_the_wire good (application_tests py_repr)
    (word_script ++ Sleep 1 :: excel_script ++ Sleep 1 :: powerpoint_script) 1.
Proof.
  unfold application_tests. eapply plays_weaken.
  - eapply plays_bind; [apply word_plays | intro].
    eapply plays_bind; [apply plays_time_sleep | intro].
    eapply plays_bind; [apply excel_plays | intro].
    eapply plays_bind; [apply plays_time_sleep | intro].
    apply powerpoint_plays.
  - vm_compute. reflexivity.
  - vm_compute. apply Nat.leb_le. reflexivity.
Qed.

(** [main] keeps what the application tests have added to the trace. *)
Lemma main_keeps_tests w items :
  server w banner health_check = Responded (Ok (PDict items)) ->
  truthy (field items "success" PNone) = true ->
  exists rest,
    snd (main py_repr w [])
    = snd (application_tests py_repr w (greeting py_repr items)) ++ rest.
Proof.
  intros Hr Hs. rewrite (main_started w items Hr Hs).
  cbv beta iota zeta delta [bind try_except print emit].
  destruct (application_tests py_repr w (greeting py_repr items))
    as [[[] | e] t']; cbn [snd].
  - eexists. rewrite <- ?app_assoc. reflexivity.
  - destruct (is_KeyboardInterrupt e); cbn [snd].
    + eexists. rewrite <- ?app_assoc. reflexivity.
    + exists []. now rewrite app_nil_r.
Qed.

(** X12.  The health gate of [main] looks at the truth value of
    [success], the label at its equality with True: a health reply
    whose [success] is truthy without being equal to True (a string,
    say) is reported as FAIL and still lets [main] go on to launch
    Word. *)
Theorem truthy_health_goes_on w items :
  server w banner health_check = Responded (Ok (PDict items)) ->
  truthy (field items "success" PNone) = true ->
  py_eq (field items "success" PNone) (PBool true) = false ->
  In (Print (status_line "FAIL" "GET" "/health")) (snd (main py_repr w []))
  /\ In (Request (POST (BASE_URL ++ "/word/launch") PNone 10))
        (snd (main py_repr w [])).
Proof.
  intros Hr Hs Hq.
  destruct (main_keeps_tests w items Hr Hs) as (rest & ->).
  destruct (application_tests_plays any_world w (greeting py_repr items) I)
    as (d & E1 & F).
  rewrite E1. split.
  - apply in_or_app. left. apply in_or_app. left.
    unfold greeting. rewrite Hq. apply in_or_app. right. right. now left.
  - assert (H : In (Request (POST (BASE_URL ++ "/word/launch") PNone 10))
                  (filter on_the_wire d)).
    { assert (N : nth_error
                    (word_script
                       ++ Sleep 1 :: excel_script
                       ++ Sleep 1 :: powerpoint_script) 0
                  = Some (Request (POST (BASE_URL ++ "/word/launch") PNone 10)))
        by (vm_compute; reflexivity).
      destruct (fst (application_tests py_repr w (greeting py_repr items))).
      - rewrite F. exact (nth_error_In _ _ N).
      - destruct F as (n & Hn & ->). apply nth_error_In with 0%nat.
        rewrite nth_error_firstn.
        destruct (Nat.ltb_spec 0 n); [exact N|lia]. }
    apply filter_In in H. apply in_or_app. left. apply in_or_app. right.
    tauto.
Qed.

End WithRepr.

(** *** Sample runs *)

Lemma launch_then_sleep_then_create_witness :
  firstn 3 (wire (emitted (test_word_features sample_repr) obliging []))
    = opening "word"
  /\ firstn 3 (wire (emitted (test_excel_features sample_repr) obliging []))
     = opening "excel"
  /\ firstn 3 (wire (emitted (test_powerpoint_features sample_repr) obliging []))
     = opening "powerpoint".
Proof.
  pose proof (launch_then_sleep_then_create sample_repr obliging []) as H.
  cbv zeta in H. destruct H as ((_ & W) & (_ & X) & (_ & P)).
  split; [|split].
  - apply W. split; [intros t r e H; discriminate H|reflexivity].
  - apply X. split; [intros t r e H; discriminate H|reflexivity].
  - apply P. split; [intros t r e H; discriminate H|reflexivity].
Defined.

Lemma named_request_shapes_witness :
  existsb (has_shape "/word/write" ["text"])
    (requests (emitted (test_word_features sample_repr) obliging [])) = true
  /\ existsb (has_shape "/excel/set_formula" ["cell"; "formula"])
       (requests (emitted (test_excel_features sample_repr) obliging []))
     = true
  /\ existsb (has_shape "/powerpoint/add_slide" ["layout"])
       (requests (emitted (test_powerpoint_features sample_repr) obliging []))
     = true.
Proof.
  apply (named_request_shapes sample_repr obliging).
  split; [intros t r e H; discriminate H|reflexivity].
Defined.

Lemma health_gate_witness :
  (exists items,
     server obliging banner health_check = Responded (Ok (PDict items))
     /\ truthy (field items "success" PNone) = true)
  /\ fst (main sample_repr (failing (Exception "ConnectionError" "refused")) [])
     = Ok tt
  /\ requests
       (snd (main sample_repr (failing (Exception "ConnectionError" "refused"))
               []))
     = [health_check]
  /\ last (snd (main sample_repr
                  (failing (Exception "ConnectionError" "refused")) []))
          (Print "")
     = Print (nl ++ "[ERROR] Server not running! "
              ++ "Please start the server first.").
Proof.
  split.
  - apply (proj1 (health_gate sample_repr obliging)
             (POST (BASE_URL ++ "/word/launch") PNone 10)).
    + vm_compute. right. left. reflexivity.
    + discriminate.
  - apply (proj2 (health_gate sample_repr
                    (failing (Exception "ConnectionError" "refused")))).
    reflexivity.
Defined.

Lemma applications_in_turn_witness :
  In (closing "word") (firstn 22 main_script)
  /\ In (closing "excel") (firstn 64 main_script).
Proof.
  pose proof (proj2 (applications_in_turn sample_repr obliging)) as H.
  cbv zeta in H. split.
  - assert (E : wire (snd (main sample_repr obliging []))
                = firstn 22 main_script
                  ++ Request (POST (BASE_URL ++ "/excel/launch") PNone 10)
                  :: skipn 23 main_script)
      by (vm_compute; reflexivity).
    exact (proj1 (H _ _ _ E) eq_refl).
  - assert (E : wire (snd (main sample_repr obliging []))
                = firstn 64 main_script
                  ++ Request (POST (BASE_URL ++ "/powerpoint/launch") PNone 10)
                  :: skipn 65 main_script)
      by (vm_compute; reflexivity).
    exact (proj2 (H _ _ _ E) eq_refl).
Defined.

Lemma normal_return_means_closed_witness :
  (wire (emitted (test_word_features sample_repr) obliging []) = word_script
   /\ last (wire (emitted (test_word_features sample_repr) obliging []))
        (Sleep 0) = closing "word")
  /\ (wire (emitted (test_excel_features sample_repr) obliging [])
        = excel_script
      /\ last (wire (emitted (test_excel_features sample_repr) obliging []))
           (Sleep 0) = closing "excel")
  /\ (wire (emitted (test_powerpoint_features sample_repr) obliging [])
        = powerpoint_script
      /\ last (wire (emitted (test_powerpoint_features sample_repr) obliging []))
           (Sleep 0) = closing "powerpoint").
Proof.
  pose proof (normal_return_means_closed sample_repr obliging []) as H.
  destruct H as (W & X & P).
  split; [|split].
  - apply W. vm_compute. reflexivity.
  - apply X. vm_compute. reflexivity.
  - apply P. vm_compute. reflexivity.
Defined.


Lemma interrupt_is_absorbed_witness :
  main sample_repr impatient []
  = (Ok tt,
     snd (application_tests sample_repr impatient
            (greeting sample_repr [("success", PBool true)]))
     ++ interrupted :: farewell).
Proof.
  apply (proj1 (proj2
           (interrupt_is_absorbed sample_repr impatient
              [("success", PBool true)] eq_refl eq_refl))).
  vm_compute. reflexivity.
Defined.

Lemma malformed_screenshot_crashes_witness :
  fst (test_word_features sample_repr
         (answering (PDict [("success", PBool true); ("image", PInt 5)])) [])
    = Raise (no_len (PInt 5))
  /\ wire (emitted (test_word_features sample_repr)
             (answering (PDict [("success", PBool true); ("image", PInt 5)]))
             [])
     = removelast word_script
  /\ ~ In (closing "word")
         (emitted (test_word_features sample_repr)
            (answering (PDict [("success", PBool true); ("image", PInt 5)]))
            [])
  /\ fst (main sample_repr
            (answering (PDict [("success", PBool true); ("image", PInt 5)]))
            [])
     = Raise (no_len (PInt 5)).
Proof.
  apply (malformed_screenshot_crashes sample_repr (PInt 5)
           (answering (PDict [("success", PBool true); ("image", PInt 5)]))
           []).
  - reflexivity.
  - reflexivity.
  - split.
    + intros t r. exists [("success", PBool true); ("image", PInt 5)].
      repeat split.
    + reflexivity.
Defined.

Lemma truthy_health_goes_on_witness :
  In (Print (status_line "FAIL" "GET" "/health"))
     (snd (main sample_repr (answering (PDict [("success", PStr "yes")])) []))
  /\ In (Request (POST (BASE_URL ++ "/word/launch") PNone 10))
        (snd (main sample_repr (answering (PDict [("success", PStr "yes")]))
                [])).
Proof.
  exact (truthy_health_goes_on sample_repr
           (answering (PDict [("success", PStr "yes")]))
           [("success", PStr "yes")] eq_refl eq_refl eq_refl).
Defined.

End TestTheory.

(** * Properties of [test_endpoint] at a console that can fail *)

Module ConsoleTheory.

Import Py Eff Trace TestAllFeatures TestVocabulary Console ConsoleVocabulary.
Import PyTheory TraceTheory.

(** Case analysis on everything the world decides during one call. *)
Ltac finish :=
  rewrite <- ?app_assoc; cbn [app fst snd];
  repeat match goal with
         | |- context [is_Exception ?e] =>
             destruct (is_Exception e); cbn [app fst snd]
         | |- context [stdout ?w ?t ?line] =>
             destruct (stdout w t line); cbn [app fst snd]
         end;
  rewrite <- ?app_assoc, ?app_nil_r; reflexivity.

Ltac dissect :=
  unfold behaviour, out_of_try, except_branch;
  repeat match goal with
         | |- context [ctrl_c ?w ?t] => destruct (ctrl_c w t) eqn:?
         | |- context [inspect ?x] => destruct (inspect x) eqn:?
         | |- context [is_Exception ?e] => destruct (is_Exception e) eqn:?
         | |- context [stdout ?w ?t ?line] => destruct (stdout w t line) eqn:?
         | |- context [negb (truthy ?s) && truthy ?x] =>
             destruct (negb (truthy s) && truthy x) eqn:?
         end;
  cbn [and_then fst snd app].

Section WithRepr.

Variable py_repr : pyval -> string.

Lemma console_call method endpoint data :
  (if String.eqb method "GET"
   then requests_get (BASE_URL ++ endpoint) 10
   else requests_post (BASE_URL ++ endpoint) data 10)
  = at_far_end (call (request_of method endpoint data)).
Proof.
  unfold request_of, requests_get, requests_post,
    TestAllFeatures.requests_get, TestAllFeatures.requests_post.
  destruct (String.eqb method "GET"); reflexivity.
Qed.

Lemma console_run method endpoint data expected w t :
  test_endpoint py_repr method endpoint data expected w t
  = (fst (behaviour py_repr method endpoint data expected w t),
     t ++ snd (behaviour py_repr method endpoint data expected w t)).
Proof.
  unfold test_endpoint, behaviour.
  rewrite console_call.
  set (r := request_of method endpoint data).
  cbv beta iota zeta delta [try_except bind call perform response_json
                            TestAllFeatures.response_json at_far_end
                            observe checkpoint print and_then ret
                            out_of_try except_branch diagnostic error_line
                            status_line label field error_dict].
  destruct (ctrl_c w t); cbn [fst snd]; [now rewrite app_nil_r|].
  destruct (server (far_end w) t r) as [e | [v | e]]; cbn [inspect].
  - finish.
  - destruct v;
      cbv beta iota zeta delta [get TestAllFeatures.get at_far_end raise ret
                                py_and py_not no_get];
      try (cbn [is_Exception]; finish).
    change (truthy (PBool ?b)) with b.
    rewrite <- ?app_assoc; cbn [app].
    match goal with
    | |- context [stdout w (t ++ [Request r]) ?line] =>
        destruct (stdout w (t ++ [Request r]) line)
    end; [|finish|finish].
    destruct (truthy match assoc "success" items with
                     | Some v => v
                     | None => PNone
                     end); cbn [negb andb]; [finish|].
    destruct (truthy expected); finish.
  - finish.
Qed.

Lemma console_fst method endpoint data expected w t :
  fst (test_endpoint py_repr method endpoint data expected w t)
  = fst (behaviour py_repr method endpoint data expected w t).
Proof. now rewrite console_run. Qed.

Lemma console_emitted method endpoint data expected w t :
  emitted (test_endpoint py_repr method endpoint data expected) w t
  = snd (behaviour py_repr method endpoint data expected w t).
Proof. eapply emitted_eq, console_run. Qed.

(** Against a console on which every line gets out and with no Ctrl-C
    the call is the one the rest of the development is about. *)
Lemma flawless_console method endpoint data expected w t :
  flawless w ->
  test_endpoint py_repr method endpoint data expected w t
  = TestAllFeatures.test_endpoint py_repr method endpoint data expected
      (far_end w) t.
Proof.
  intros [Hs Hc].
  rewrite console_run, TestTheory.test_endpoint_run.
  unfold behaviour, out_of_try, except_branch, diagnostic, label.
  rewrite Hc.
  destruct (inspect (server (far_end w) t (request_of method endpoint data)))
    as [e | items]; cbv zeta; rewrite ?Hs; cbn [and_then fst snd app].
  - destruct (is_Exception e); cbn [fst snd]; rewrite ?Hs; reflexivity.
  - destruct (negb (truthy (field items "success" PNone)) && truthy expected);
      rewrite ?Hs; reflexivity.
Qed.

Lemma flawless_fst method endpoint data expected w t :
  flawless w ->
  fst (test_endpoint py_repr method endpoint data expected w t)
  = fst (TestAllFeatures.test_endpoint py_repr method endpoint data expected
           (far_end w) t).
Proof. intro F. now rewrite flawless_console. Qed.


Lemma ideal_flawless w : flawless (ideal w).
Proof. split; intros; reflexivity. Qed.

(** *** The status lines *)











(** *** The verdict *)




(** *** Requests *)

Lemma requests_behaviour method endpoint data expected w t :
  requests (snd (behaviour py_repr method endpoint data expected w t))
  = if ctrl_c w t then [] else [request_of method endpoint data].
Proof. dissect; reflexivity. Qed.

(** C3, as amended.  A call makes at most one request, and exactly
    one unless Ctrl-C arrives before it is made: a GET when
    [method == "GET"], otherwise a POST carrying [data].  Nothing is
    sent again.  When the request or the decoding raises an
    [Exception], the handler prints its ERROR line and, if that
    [print] goes through, the call returns
    [{"success": False, "error": str(e)}]; if that [print] raises, what
    it raises leaves the call.  An exception outside [Exception]
    leaves the call as it is. *)
Theorem one_request_no_retry method endpoint data expected w t :
  let run := test_endpoint py_repr method endpoint data expected in
  let r := if String.eqb method "GET"
           then GET (BASE_URL ++ endpoint) 10
           else POST (BASE_URL ++ endpoint) data 10 in
  requests (emitted run w t) = (if ctrl_c w t then [] else [r])
  /\ if ctrl_c w t
     then run w t = (Raise KeyboardInterrupt, t)
     else
       match raised (server (far_end w) t r) with
       | Some e =>
           if is_Exception e
           then
             match stdout w (t ++ [Request r]) (error_line method endpoint e)
             with
             | Shown =>
                 run w t
                 = (Ok (error_dict e),
                    t ++ [Request r; Print (error_line method endpoint e)])
             | Lost e' => run w t = (Raise e', t ++ [Request r])
             | ShownThen e' =>
                 run w t
                 = (Raise e',
                    t ++ [Request r; Print (error_line method endpoint e)])
             end
           else run w t = (Raise e, t ++ [Request r])
       | None => True
       end.
Proof.
  intros run r. subst run.
  change r with (request_of method endpoint data).
  clear r. set (r := request_of method endpoint data).
  rewrite console_emitted, requests_behaviour. fold r.
  split; [reflexivity|].
  rewrite console_run. unfold behaviour. fold r.
  destruct (ctrl_c w t); [now rewrite app_nil_r|].
  destruct (server (far_end w) t r) as [e | [v | e]];
    cbn [raised inspect]; try exact I;
    unfold out_of_try, except_branch;
    (destruct (is_Exception e);
     [destruct (stdout w (t ++ [Request r]) (error_line method endpoint e))|]);
    cbn [and_then fst snd app]; rewrite ?app_nil_r; reflexivity.
Qed.

(** *** What reaches the caller *)

(** C8, as amended.  Whatever a call returns is a dict: the decoded
    JSON object, or [{"success": False, "error": str(e)}] for an
    [Exception] met inside the [try].  What a call raises is either
    outside [Exception] or was raised by the handler's own [print].
    Against a console on which every line gets out and with no Ctrl-C,
    every [Exception] raised while sending, decoding or inspecting is
    turned into that dict, and only an exception outside [Exception]
    raised by the request or the decoding reaches the caller. *)
Theorem returns_dict_or_lets_through method endpoint data expected w t :
  let run := test_endpoint py_repr method endpoint data expected in
  match fst (run w t) with
  | Ok v =>
      type_name v = "dict"
      /\ (server (far_end w) t (request_of method endpoint data)
            = Responded (Ok v)
          \/ exists e, is_Exception e = true /\ v = error_dict e)
  | Raise e =>
      is_Exception e = false
      \/ exists e0 t',
           is_Exception e0 = true
           /\ (stdout w t' (error_line method endpoint e0) = Lost e
               \/ stdout w t' (error_line method endpoint e0) = ShownThen e)
  end
  /\ (flawless w ->
      fst (run w t)
      = match inspect (server (far_end w) t (request_of method endpoint data))
        with
        | inr items => Ok (PDict items)
        | inl e => if is_Exception e then Ok (error_dict e) else Raise e
        end).
Proof.
  intro run. subst run. split.
  - rewrite console_fst.
    assert (Hi : forall reply items,
               inspect reply = inr items ->
               reply = Responded (Ok (PDict items))).
    { intros reply found.
      destruct reply as [e | [v | e]]; [|destruct v|];
        cbn [inspect]; congruence. }
    pose proof (Hi (server (far_end w) t (request_of method endpoint data)))
      as Hr.
    clear Hi.
    dissect;
      first [ solve [now left]
            | solve [split; [reflexivity|]; left; apply Hr; reflexivity]
            | solve [split; [reflexivity|]; right; eauto]
            | solve [right; eauto 6] ].
  - intro F. rewrite (flawless_fst _ _ _ _ _ _ F).
    pose proof (TestTheory.test_endpoint_emitted py_repr method endpoint data
                  expected (far_end w) t) as E.
    cbv zeta in E.
    destruct (inspect (server (far_end w) t (request_of method endpoint data)))
      as [e | items].
    + destruct (is_Exception e); exact (proj1 E).
    + exact (proj1 E).
Qed.

(** *** The diagnostic *)




End WithRepr.

(** *** Sample runs *)



Lemma returns_dict_or_lets_through_witness :
  fst (test_endpoint sample_repr "GET" "/health" PNone (PBool true)
         (ideal (failing (Exception "ConnectionError" "refused"))) [])
  = Ok (error_dict (Exception "ConnectionError" "refused")).
Proof.
  exact (proj2 (returns_dict_or_lets_through sample_repr "GET" "/health" PNone
                  (PBool true)
                  (ideal (failing (Exception "ConnectionError" "refused"))) [])
           (ideal_flawless _)).
Defined.




(** C3 as worded fails: when the request raises [KeyboardInterrupt] the
    call does not return a dict, it raises; and when the request is
    refused while the console is gone, the handler's own [print]
    raises and the call raises that; and when Ctrl-C has come before
    the request is made, none is made. *)
Lemma interrupted_request_counterexample :
  raised (server (failing KeyboardInterrupt) []
            (request_of "POST" "/word/launch" PNone))
    = Some KeyboardInterrupt
  /\ fst (test_endpoint sample_repr "POST" "/word/launch" PNone (PBool true)
            (ideal (failing KeyboardInterrupt)) [])
     = Raise KeyboardInterrupt
  /\ raised (server (failing (Exception "ConnectionError" "refused")) []
               (request_of "POST" "/word/launch" PNone))
     = Some (Exception "ConnectionError" "refused")
  /\ fst (test_endpoint sample_repr "POST" "/word/launch" PNone (PBool true)
            (closed_console (failing (Exception "ConnectionError" "refused")))
            [])
     = Raise broken_pipe
  /\ test_endpoint sample_repr "GET" "/health" PNone (PBool true)
       (late_console obliging) []
     = (Raise KeyboardInterrupt, []).
Proof. repeat split. Qed.


(** C8 as worded fails: with the console gone the status line cannot
    be printed, the handler's own [print] fails in turn, and the
    [BrokenPipeError], an [Exception], reaches the caller; and a
    [KeyboardInterrupt] raised while the request is being sent, or
    right after the status line is out, reaches it as well. *)
Lemma exception_reaches_caller_counterexample :
  fst (test_endpoint sample_repr "GET" "/health" PNone (PBool true)
         (closed_console obliging) banner)
    = Raise broken_pipe
  /\ is_Exception broken_pipe = true
  /\ fst (test_endpoint sample_repr "GET" "/health" PNone (PBool true)
            (ideal (failing KeyboardInterrupt)) banner)
     = Raise KeyboardInterrupt
  /\ test_endpoint sample_repr "GET" "/health" PNone (PBool true)
       (hasty_console obliging) []
     = (Raise KeyboardInterrupt,
        [Request health_check; Print "  [OK] GET /health"]).
Proof. repeat split. Qed.

End ConsoleTheory.

(** * Properties of the build script *)

Module BuildTheory.

Import Py Eff Trace Build BuildVocabulary TraceTheory.

Section WithFormatting.

Variable py_repr : pyval -> string.
Variable format_mb : Z -> string.

(** C10.  On a platform other than [win32] the script prints its
    heading and the error line and leaves through [sys.exit(1)]: the
    interpreter exits with status 1, and no subprocess has been
    started, no module loaded and no folder removed. *)
Theorem platform_gate w t :
  sys_platform w <> "win32" ->
  let run := main py_repr format_mb in
  fst (run w t) = Raise (SystemExit 1)
  /\ exit_status (fst (run w t)) = Some 1
  /\ emitted run w t = heading ++ [not_windows]
  /\ filter changes_state (emitted run w t) = [].
Proof.
  intros Hp run.
  assert (E : run w t = (Raise (SystemExit 1), t ++ heading ++ [not_windows])).
  { subst run. unfold main.
    cbv beta iota zeta delta [bind print emit sys observe sys_exit raise].
    apply String.eqb_neq in Hp. rewrite Hp. cbn [negb].
    rewrite <- ?app_assoc. reflexivity. }
  rewrite (emitted_eq _ _ _ _ _ E), E. repeat split.
Qed.

Lemma preliminary_events d :
  forallb preliminary d = true ->
  existsb announces_build d = false /\ filter invokes_pyinstaller d = [].
Proof.
  induction d as [|ev d IH]; cbn; [auto|].
  unfold preliminary at 1. intro H.
  apply andb_prop in H. destruct H as [H1 H2].
  apply andb_prop in H1. destruct H1 as [Hi Ha].
  apply negb_true_iff in Hi, Ha. rewrite Hi, Ha. cbn. auto.
Qed.

(** Steps that neither invoke PyInstaller nor announce the build can be
    put in front of a script without changing what is to be shown. *)
Lemma builds_once_bind {A} (m : M world event A) (k : A -> M world event unit) :
  only preliminary m -> (forall a, always_builds_once (k a)) ->
  always_builds_once (bind m k).
Proof.
  intros Hm Hk w t. destruct (Hm w t) as (d1 & E1 & F1).
  apply preliminary_events in F1. destruct F1 as [Fa Fi].
  unfold bind. destruct (m w t) as [[a | e] t1]; cbn [snd] in *; subst t1.
  - destruct (Hk a w (t ++ d1)) as (d2 & E2 & H).
    exists (d1 ++ d2). split; [now rewrite E2, app_assoc|].
    rewrite existsb_app, Fa. cbn [orb].
    destruct (existsb announces_build d2).
    + destruct H as (before & after & -> & Hb & Ha & H).
      exists (d1 ++ before), after. rewrite <- ?app_assoc in *.
      repeat split; [now rewrite filter_app, Fi, Hb|exact Ha|exact H].
    + now rewrite filter_app, Fi, H.
  - exists d1. split; [reflexivity|]. now rewrite Fa.
Qed.

Ltac quiet :=
  lazymatch goal with
  | |- only _ (bind _ _) => apply only_bind; [quiet | intro; quiet]
  | |- only _ (if _ then _ else _) => apply only_if; quiet
  | |- only _ (try_except _ _ _) =>
      apply only_try_except; [quiet | intro; quiet]
  | |- only _ (for_each _ _) => apply only_for_each; intro; quiet
  | |- only _ (print _) => apply only_emit; reflexivity
  | |- only _ (subprocess_run _ _ _) => unfold subprocess_run; quiet
  | |- only _ (perform _ _) => apply only_perform; reflexivity
  | |- only _ (import _) => apply only_perform; reflexivity
  | |- only _ (shutil_rmtree _) => apply only_perform; reflexivity
  | |- only _ (ret _) => apply only_ret
  | |- only _ (raise _) => apply only_raise
  | |- only _ (sys_exit _) => apply only_raise
  | |- only _ (sys _) => apply only_observe
  | |- only _ (os_path_exists _) => apply only_observe
  | |- only _ (os_path_join _ _) => apply only_observe
  | |- only _ (os_path_getsize _) => apply only_observe
  end.

Lemma main_builds_once : always_builds_once (main py_repr format_mb).
Proof.
  unfold main.
  repeat (apply builds_once_bind; [solve [quiet] | intros ?]).
  intros w t. unfold builds_once.
  cbv beta iota zeta delta [bind print emit sys observe sys_exit raise ret
     subprocess_run perform os_path_exists os_path_join os_path_getsize].
  cbn [andb]. fold (pyinstaller_argv (sys_executable w)). fold (exe_path w).
  set (argv := pyinstaller_argv (sys_executable w)).
  set (announce := Print (nl ++ "[4/4] Building with PyInstaller...")).
  assert (Ha : forall rest, existsb announces_build (announce :: rest) = true)
    by reflexivity.
  assert (Hi : forall ev rest,
             invokes_pyinstaller ev = false ->
             filter invokes_pyinstaller (ev :: rest)
             = filter invokes_pyinstaller rest)
    by (intros ev rest H; cbn; now rewrite H).
  rewrite <- ?app_assoc. cbn [app].
  destruct (spawn w (t ++ [announce]) argv) as [returncode | e] eqn:Hs;
    cbv beta iota.
  - destruct (negb (returncode =? 0)) eqn:Hrc; cbv beta iota.
    + eexists. rewrite <- ?app_assoc. cbn [app snd fst].
      split; [reflexivity|]. rewrite Ha.
      exists [announce], [Print (nl ++ "ERROR: PyInstaller build failed")].
      rewrite Hs, Hrc. repeat split.
    + rewrite <- ?app_assoc. cbn [app].
      destruct (path_exists w (t ++ [announce; Run argv]) (exe_path w)) eqn:Hx;
        cbv beta iota.
      * destruct (file_size w (t ++ [announce; Run argv]) (exe_path w))
          as [size | e] eqn:Hz.
        -- eexists. rewrite <- ?app_assoc. cbn [app snd fst].
           split; [reflexivity|]. rewrite Ha.
           eexists [announce], _. rewrite Hs, Hrc. cbn [app].
           rewrite Hx, Hz. repeat split.
        -- eexists. cbn [app snd fst].
           split; [reflexivity|]. rewrite Ha.
           exists [announce], []. rewrite Hs, Hrc. cbn [app].
           rewrite Hx, Hz. repeat split.
      * eexists. rewrite <- ?app_assoc. cbn [app snd fst].
        split; [reflexivity|]. rewrite Ha.
        exists [announce], [Print (nl ++ "ERROR: Output file not found")].
        rewrite Hs, Hrc. cbn [app]. rewrite Hx. repeat split.
  - eexists. cbn [app snd fst]. split; [reflexivity|]. rewrite Ha.
    exists [announce], []. rewrite Hs. repeat split.
Qed.

(** *** The order of the build steps *)

Lemma last_cons {A} (l : list A) a b : last (b :: l) a = last l b.
Proof.
  revert a b. induction l as [|c l IH]; intros a b; [reflexivity|].
  change (last (b :: c :: l) a) with (last (c :: l) a).
  now rewrite (IH a c), (IH b c).
Qed.

Lemma chain_app a l1 l2 :
  chain a (l1 ++ l2) = chain a l1 && chain (last l1 a) l2.
Proof.
  revert a. induction l1 as [|b l1 IH]; intro a; [reflexivity|].
  cbn [app chain]. now rewrite IH, andb_assoc, last_cons.
Qed.

Lemma last_app_from {A} (l1 l2 : list A) a :
  last (l1 ++ l2) a = last l2 (last l1 a).
Proof.
  revert a. induction l1 as [|b l1 IH]; intro a; [reflexivity|].
  change ((b :: l1) ++ l2) with (b :: l1 ++ l2).
  now rewrite !last_cons, IH.
Qed.

Lemma steps_app w d1 d2 : steps w (d1 ++ d2) = steps w d1 ++ steps w d2.
Proof. unfold steps. now rewrite filter_app, map_app. Qed.

Lemma steps_prints w d : forallb is_print d = true -> steps w d = [].
Proof.
  unfold steps. induction d as [|ev d IH]; [reflexivity|].
  cbn [forallb filter]. unfold is_print at 1. intro H.
  apply andb_prop in H. destruct H as [H1 H2].
  apply negb_true_iff in H1. rewrite H1. auto.
Qed.

Lemma moves_silent {A} w (m : M world event A) P :
  only is_print m -> moves w m P P.
Proof.
  intros Hm a t Ha. destruct (Hm w t) as (d & E1 & F).
  exists d. rewrite (steps_prints w d F). auto.
Qed.

Lemma moves_perform {A} w ev (answer : world -> list event -> outcome A) n P :
  changes_state ev = true -> step_number w ev = n ->
  forallb (fun a => allowed a n) P = true ->
  moves w (perform ev answer) P [n].
Proof.
  intros Hc Hn HP a t Ha. exists [ev]. split; [reflexivity|].
  unfold steps. cbn [filter]. rewrite Hc. cbn [map chain last]. rewrite Hn.
  rewrite forallb_forall in HP. rewrite (HP a Ha). cbn. auto.
Qed.

Lemma moves_bind {A B} w (m : M world event A) (k : A -> M world event B)
    P Q R :
  moves w m P Q -> (forall x, moves w (k x) Q R) -> moves w (bind m k) P R.
Proof.
  intros Hm Hk a t Ha. destruct (Hm a t Ha) as (d1 & E1 & C1 & L1).
  unfold bind. destruct (m w t) as [[x | e] t1]; cbn [fst snd] in *; subst t1.
  - destruct (Hk x (last (steps w d1) a) (t ++ d1) (L1 x eq_refl))
      as (d2 & E2 & C2 & L2).
    exists (d1 ++ d2). rewrite E2, app_assoc. split; [reflexivity|].
    rewrite steps_app, chain_app, C1, C2, last_app_from. auto.
  - exists d1. repeat split; [exact C1|]. intros x H. discriminate H.
Qed.

Lemma moves_sys {B} w (f : world -> string) (k : string -> M world event B)
    P Q :
  moves w (k (f w)) P Q -> moves w (bind (sys f) k) P Q.
Proof. intros H a t Ha. exact (H a t Ha). Qed.

Lemma moves_if {A} w (c : bool) (m1 m2 : M world event A) P Q1 Q2 :
  moves w m1 P Q1 -> moves w m2 P Q2 ->
  moves w (if c then m1 else m2) P (Q1 ++ Q2).
Proof.
  intros H1 H2 a t Ha.
  destruct c; [destruct (H1 a t Ha) as (d & E1 & C & L)
              |destruct (H2 a t Ha) as (d & E1 & C & L)];
    exists d; repeat split; auto; intros x H; apply in_or_app; eauto.
Qed.

(** A [try] whose handler only prints and never returns. *)
Lemma moves_try_except {A} w (body : M world event A) catches handler P Q :
  moves w body P Q -> (forall e, only is_print (handler e)) ->
  (forall e t x, fst (handler e w t) <> Ok x) ->
  moves w (try_except body catches handler) P Q.
Proof.
  intros Hb Hh Hn a t Ha. destruct (Hb a t Ha) as (d1 & E1 & C1 & L1).
  unfold try_except.
  destruct (body w t) as [[x | e] t1]; cbn [fst snd] in *; subst t1.
  - exists d1. auto.
  - destruct (catches e).
    + destruct (Hh e w (t ++ d1)) as (d2 & E2 & F2).
      exists (d1 ++ d2). rewrite E2, app_assoc. split; [reflexivity|].
      rewrite steps_app, (steps_prints w d2 F2), app_nil_r.
      split; [exact C1|]. intros x H. now elim (Hn e (t ++ d1) x).
    + exists d1. repeat split; [exact C1|]. intros x H. discriminate H.
Qed.

Lemma step_pip w : step_number w (Run (pip_argv (sys_executable w))) = 1%nat.
Proof.
  unfold step_number, runs. cbn [hd tl pip_argv].
  rewrite String.eqb_refl. reflexivity.
Qed.

Lemma step_pyinstaller w :
  step_number w (Run (pyinstaller_argv (sys_executable w))) = 6%nat.
Proof.
  unfold step_number, runs. cbn [hd tl pip_argv pyinstaller_argv].
  rewrite !String.eqb_refl. reflexivity.
Qed.

Ltac march :=
  lazymatch goal with
  | |- moves _ (bind (sys _) _) _ _ => apply moves_sys; cbv beta; march
  | |- moves _ (bind _ _) _ _ => eapply moves_bind; [march | intro; march]
  | |- moves _ (if _ then _ else _) _ _ => eapply moves_if; march
  | |- moves _ (try_except _ _ _) _ _ =>
      eapply moves_try_except;
      [ march
      | intro; quiet
      | intros;
        cbv beta iota zeta delta [bind print emit sys_exit raise fst];
        discriminate ]
  | |- moves _ (perform _ _) _ _ =>
      eapply moves_perform;
      [ reflexivity
      | first [apply step_pip | apply step_pyinstaller | reflexivity]
      | reflexivity ]
  | |- moves _ (import _) _ _ => unfold import; march
  | |- moves _ (shutil_rmtree _) _ _ => unfold shutil_rmtree; march
  | |- moves _ (subprocess_run _ _ _) _ _ => unfold subprocess_run; march
  | |- moves _ (for_each _ _) _ _ => cbn [for_each]; march
  | |- moves _ _ _ _ => apply moves_silent; quiet
  end.

Lemma main_moves w : exists Q, moves w (main py_repr format_mb) [0%nat] Q.
Proof. eexists. unfold main. march. Qed.

(** X7.  Whatever happens, the steps of a run that change something
    come in the order of the script and none comes twice: the pip
    install, the import of [win32com.client], the import of
    [pythoncom], the removal of [build] if it is there, the removal of
    [dist] if it is there, PyInstaller.  No other subprocess is
    started, no other module imported, no other folder removed, and no
    step is reached around an earlier one other than the two
    removals. *)
Theorem steps_in_order w t :
  chain 0 (steps w (emitted (main py_repr format_mb) w t)) = true.
Proof.
  destruct (main_moves w) as (Q & H).
  destruct (H 0%nat t (or_introl eq_refl)) as (d & E1 & C & _).
  now rewrite (emitted_snd _ _ _ _ E1).
Qed.

(** *** Failures before the build *)

Ltac run_main :=
  unfold main;
  cbv beta iota zeta delta [bind print emit sys observe sys_exit raise ret
     subprocess_run perform try_except import];
  rewrite <- ?app_assoc; cbn [app].

(** X8.  On Windows a pip install that does not return 0 ends the run
    with the [CalledProcessError] of [check=True], uncaught: the
    interpreter exits with status 1 without the script printing an
    error line, and nothing is imported, removed or built.  An
    exception raised by the attempt to start pip ends the run in the
    same way. *)
Theorem pip_failure_stops w t :
  sys_platform w = "win32" ->
  let before := t ++ heading ++ installing w in
  let argv := pip_argv (sys_executable w) in
  let run := main py_repr format_mb w t in
  match spawn w before argv with
  | Raise e => run = (Raise e, before ++ [Run argv])
  | Ok returncode =>
      returncode <> 0%Z ->
      run = (Raise (Exception "CalledProcessError"
                      ("Command '" ++ list_repr py_repr argv
                       ++ "' returned non-zero exit status "
                       ++ decimal returncode ++ ".")),
             before ++ [Run argv])
      /\ exit_status (fst run) = Some 1%Z
  end.
Proof.
  intros Hp before argv run. subst before argv run.
  unfold heading, installing, pip_argv. rewrite <- ?app_assoc. cbn [app].
  run_main. rewrite (proj2 (String.eqb_eq _ _) Hp). cbn [negb].
  rewrite <- ?app_assoc. cbn [app].
  destruct (spawn w _ _) as [returncode | e]; [|reflexivity].
  intro Hrc. apply Z.eqb_neq in Hrc. rewrite Hrc. cbn [negb andb].
  rewrite <- ?app_assoc. cbn [app fst exit_status]. auto.
Qed.

(** X9.  Once pip has returned 0, an [ImportError] from either of the
    two imports makes the script print its three lines of advice and
    leave through [sys.exit(1)], before anything is removed or built;
    any other exception raised by an import is not caught and ends the
    run as it is.  [pythoncom] is imported only after
    [win32com.client] has been. *)
Theorem pywin32_failure_stops w t :
  sys_platform w = "win32" ->
  spawn w (t ++ heading ++ installing w) (pip_argv (sys_executable w))
    = Ok 0%Z ->
  let before :=
    t ++ heading ++ installing w
      ++ [Run (pip_argv (sys_executable w)); verifying] in
  let run := main py_repr format_mb w t in
  let stopped here e :=
    if is_ImportError e
    then run = (Raise (SystemExit 1), here ++ pywin32_missing e)
         /\ exit_status (fst run) = Some 1%Z
    else run = (Raise e, here) in
  match load w before "win32com.client" with
  | Some e => stopped (before ++ [Import "win32com.client"]) e
  | None =>
      match load w (before ++ [Import "win32com.client"]) "pythoncom" with
      | Some e =>
          stopped (before ++ [Import "win32com.client"; Import "pythoncom"]) e
      | None => True
      end
  end.
Proof.
  intros Hp Hs before run stopped. subst before run stopped.
  unfold heading, installing, pip_argv, verifying, pywin32_missing in *.
  rewrite <- ?app_assoc in *. cbn [app] in *.
  run_main. rewrite (proj2 (String.eqb_eq _ _) Hp). cbn [negb].
  rewrite <- ?app_assoc. cbn [app]. rewrite Hs.
  cbn [Z.eqb negb andb]. rewrite <- ?app_assoc. cbn [app].
  destruct (load w _ "win32com.client") as [e |].
  - destruct (is_ImportError e); rewrite <- ?app_assoc; cbn [app fst];
      auto.
  - rewrite <- ?app_assoc. cbn [app].
    destruct (load w _ "pythoncom") as [e |]; [|exact I].
    destruct (is_ImportError e); rewrite <- ?app_assoc; cbn [app fst];
      auto.
Qed.

(** *** What a normal return means *)

Lemma succeeded_bind {A} (m : M world event A) (k : A -> M world event unit) :
  only preliminary m -> (forall a, always_succeeded (k a)) ->
  always_succeeded (bind m k).
Proof.
  intros Hm Hk w t. destruct (Hm w t) as (d1 & E1 & _).
  unfold bind. destruct (m w t) as [[a | e] t1]; cbn [snd] in *; subst t1.
  - destruct (Hk a w (t ++ d1)) as (d2 & E2 & H).
    exists (d1 ++ d2). split; [now rewrite E2, app_assoc|].
    intro Hr. destruct (H Hr) as (before & after & -> & Hs & Hx & Hi).
    exists (d1 ++ before), after. rewrite <- !app_assoc in *. auto.
  - exists d1. split; [reflexivity|]. intro Hr. discriminate Hr.
Qed.

Lemma main_succeeded : always_succeeded (main py_repr format_mb).
Proof.
  unfold main.
  repeat (apply succeeded_bind; [solve [quiet] | intros ?]).
  intros w t. unfold succeeded.
  cbv beta iota zeta delta [bind print emit sys observe sys_exit raise ret
     subprocess_run perform os_path_exists os_path_join os_path_getsize].
  cbn [andb]. fold (pyinstaller_argv (sys_executable w)). fold (exe_path w).
  set (argv := pyinstaller_argv (sys_executable w)).
  set (announce := Print (nl ++ "[4/4] Building with PyInstaller...")).
  rewrite <- ?app_assoc. cbn [app].
  destruct (spawn w (t ++ [announce]) argv) as [returncode | e] eqn:Hs;
    cbv beta iota.
  - destruct (returncode =? 0)%Z eqn:Hrc; cbn [negb]; cbv beta iota.
    + apply Z.eqb_eq in Hrc. subst returncode.
      rewrite <- ?app_assoc. cbn [app].
      destruct (path_exists w (t ++ [announce; Run argv]) (exe_path w)) eqn:Hx;
        cbv beta iota.
      * destruct (file_size w (t ++ [announce; Run argv]) (exe_path w))
          as [size | e] eqn:Hz.
        -- eexists. rewrite <- ?app_assoc. cbn [app snd fst].
           split; [reflexivity|]. intros _.
           eexists [announce], _. cbn [app].
           repeat split; [exact Hs|exact Hx|]. cbn. tauto.
        -- eexists. cbn [snd fst]. split; [reflexivity|].
           intro Hr. discriminate Hr.
      * eexists. rewrite <- ?app_assoc. cbn [app snd fst].
        split; [reflexivity|]. intro Hr. discriminate Hr.
    + eexists. rewrite <- ?app_assoc. cbn [app snd fst].
      split; [reflexivity|]. intro Hr. discriminate Hr.
  - eexists. cbn [snd fst]. split; [reflexivity|]. intro Hr. discriminate Hr.
Qed.

(** X10.  The script returns normally, and so exits with status 0,
    only after a build that worked: PyInstaller was started, returned
    0, the executable was found in [dist], and [BUILD SUCCESSFUL!] was
    printed after that. *)
Theorem success_is_earned w :
  let run := main py_repr format_mb w [] in
  let argv := pyinstaller_argv (sys_executable w) in
  fst run = Ok tt ->
  exit_status (fst run) = Some 0%Z
  /\ exists before after,
       snd run = before ++ Run argv :: after
       /\ spawn w before argv = Ok 0%Z
       /\ path_exists w (before ++ [Run argv]) (exe_path w) = true
       /\ In (Print "BUILD SUCCESSFUL!") after.
Proof.
  intros run argv Hr. split; [now rewrite Hr|].
  destruct (main_succeeded w []) as (d & E1 & H). fold run in E1, H.
  cbn [app] in E1, H. rewrite E1.
  destruct (H Hr) as (before & after & -> & Hs & Hx & Hi).
  exists before, after. auto.
Qed.

(** *** The clean-up *)

Lemma guards_app w t d1 d2 :
  guards w t d1 -> guards w (t ++ d1) d2 -> guards w t (d1 ++ d2).
Proof.
  revert t. induction d1 as [|ev d1 IH]; intros t H1 H2.
  - now rewrite app_nil_r in H2.
  - cbn [app guards] in *. destruct H1 as [H1 H1']. split; [exact H1|].
    apply IH; [exact H1'|]. now rewrite <- app_assoc.
Qed.

Lemma guards_keeps w t d : forallb keeps d = true -> guards w t d.
Proof.
  revert t. induction d as [|ev d IH]; intros t H; [exact I|].
  cbn [forallb guards] in *. apply andb_prop in H. destruct H as [H1 H2].
  split; [now destruct ev|auto].
Qed.

Lemma guards_split w t before folder after :
  guards w t (before ++ Rmtree folder :: after) ->
  path_exists w (t ++ before) folder = true.
Proof.
  revert t. induction before as [|ev before IH]; intros t H.
  - rewrite app_nil_r. exact (proj1 H).
  - cbn [app guards] in H. destruct H as [_ H].
    apply IH in H. now rewrite <- app_assoc in H.
Qed.

Lemma guarded_keeps {A} w (m : M world event A) :
  only keeps m -> guarded w m.
Proof.
  intros Hm t. destruct (Hm w t) as (d & E1 & F).
  exists d. split; [exact E1|]. now apply guards_keeps.
Qed.

Lemma guarded_bind {A B} w (m : M world event A) (k : A -> M world event B) :
  guarded w m -> (forall a, guarded w (k a)) -> guarded w (bind m k).
Proof.
  intros Hm Hk t. destruct (Hm t) as (d1 & E1 & G1).
  unfold bind. destruct (m w t) as [[a | e] t1]; cbn [snd] in *; subst t1.
  - destruct (Hk a (t ++ d1)) as (d2 & E2 & G2).
    exists (d1 ++ d2). split; [now rewrite E2, app_assoc|].
    now apply guards_app.
  - now exists d1.
Qed.

Lemma guarded_for_each {A} w (xs : list A) (body : A -> M world event unit) :
  (forall x, guarded w (body x)) -> guarded w (for_each xs body).
Proof.
  intro Hb. induction xs as [|x xs IH]; cbn [for_each].
  - apply guarded_keeps, only_ret.
  - apply guarded_bind; auto.
Qed.

(** One turn of the clean-up loop. *)
Lemma guarded_clean w folder :
  guarded w
    (bind (os_path_exists folder)
       (fun present : bool =>
          if present
          then bind (shutil_rmtree folder)
                 (fun _ => print ("  Removed " ++ folder ++ "/"))
          else ret tt)).
Proof.
  intro t.
  cbv beta iota zeta delta [bind os_path_exists observe shutil_rmtree perform
                            print emit ret].
  destruct (path_exists w t folder) eqn:Hx; cbv beta iota.
  - destruct (remove_tree w t folder); eexists;
      (split; [cbn [snd]; rewrite <- ?app_assoc; reflexivity|]);
      cbn [app guards]; auto.
  - exists []. split; [cbn [snd]; now rewrite app_nil_r|exact I].
Qed.

Lemma main_guarded w : guarded w (main py_repr format_mb).
Proof.
  unfold main.
  repeat (apply guarded_bind;
          [first [ solve [apply guarded_keeps; quiet]
                 | apply guarded_for_each; intro; apply guarded_clean ]
          | intros ?]).
  apply guarded_keeps. quiet.
Qed.

(** X11.  [shutil.rmtree] is only ever called on a folder that
    [os.path.exists] reports as present at that very moment, so the
    clean-up never fails on a folder that is not there. *)
Theorem removes_only_what_exists w before folder after :
  snd (main py_repr format_mb w []) = before ++ Rmtree folder :: after ->
  path_exists w before folder = true.
Proof.
  intro H. destruct (main_guarded w []) as (d & E1 & G).
  cbn [app] in E1. rewrite E1 in H. subst d.
  exact (guards_split w [] _ _ _ G).
Qed.

(** X13.  Where nothing goes wrong the script returns normally, so
    the interpreter exits with status 0, and [BUILD SUCCESSFUL!] has
    been printed, whether or not there were folders to clean up. *)
Theorem build_succeeds w t :
  cooperative w ->
  let run := main py_repr format_mb in
  fst (run w t) = Ok tt
  /\ exit_status (fst (run w t)) = Some 0%Z
  /\ In (Print "BUILD SUCCESSFUL!") (emitted run w t).
Proof.
  intros (Hp & Hspawn & Hload & Hrm & Hexe & Hsize) run.
  assert (E : exists d, run w t = (Ok tt, t ++ d)
                        /\ In (Print "BUILD SUCCESSFUL!") d).
  { subst run. unfold main.
    cbv beta iota zeta delta [bind print emit sys observe sys_exit raise ret
       subprocess_run perform try_except import for_each os_path_exists
       os_path_join os_path_getsize shutil_rmtree].
    fold (exe_path w).
    rewrite (proj2 (String.eqb_eq _ _) Hp). cbn [negb].
    repeat (rewrite ?Hspawn, ?Hload, ?Hrm, ?Hexe; cbv beta iota;
            cbn [Z.eqb negb andb]).
    destruct (path_exists w _ "build"); cbv beta iota;
      repeat (rewrite ?Hspawn, ?Hload, ?Hrm, ?Hexe; cbv beta iota;
              cbn [Z.eqb negb andb]);
      (destruct (path_exists w _ "dist"); cbv beta iota;
       repeat (rewrite ?Hspawn, ?Hload, ?Hrm, ?Hexe; cbv beta iota;
               cbn [Z.eqb negb andb]));
      match goal with
      | |- context [file_size w ?t' (exe_path w)] =>
          destruct (Hsize t') as [size Hz]; rewrite Hz
      end;
      eexists; (split; [rewrite <- ?app_assoc; cbn [app]; reflexivity|]);
      cbn; tauto. }
  destruct E as (d & E & Hd).
  rewrite (emitted_eq _ _ _ _ _ E), E. auto.
Qed.

(** *** How often PyInstaller is started *)

Lemma split_unique {A} (p : A -> bool) x (b1 a1 b2 a2 : list A) :
  p x = true -> filter p b1 = [] -> filter p a1 = [] ->
  b1 ++ x :: a1 = b2 ++ x :: a2 -> b1 = b2 /\ a1 = a2.
Proof.
  intros Hx. revert b2.
  induction b1 as [|y b1 IH]; intros [|z b2] Hb Ha E; cbn [app] in E.
  - injection E as <-. auto.
  - injection E as <- ->. rewrite filter_app in Ha. cbn [filter] in Ha.
    rewrite Hx in Ha. now destruct (filter p b2).
  - injection E as -> _. cbn [filter] in Hb. now rewrite Hx in Hb.
  - injection E as <- E. cbn [filter] in Hb.
    destruct (p y); [discriminate Hb|].
    destruct (IH b2 Hb Ha E) as [-> ->]. auto.
Qed.

(** C7, as amended.  PyInstaller is started at most once in a run, and
    only with the fixed command line.  On a Windows machine where pip
    returns 0, both modules can be imported and the clean-up raises
    nothing it is started exactly once; on any other platform it is
    never started.  Whenever it has been started: if the subprocess
    returns a non-zero code, or if the executable does not exist
    afterwards, the script leaves through [sys.exit(1)]; if the
    subprocess cannot be started, what that raises ends the run; and
    the script returns normally only if the executable is there and
    can be measured. *)
Theorem pyinstaller_once w :
  let run := main py_repr format_mb w [] in
  let argv := pyinstaller_argv (sys_executable w) in
  let started := filter invokes_pyinstaller (snd run) in
  (started = [] \/ started = [Run argv])
  /\ (ready w -> started = [Run argv])
  /\ (sys_platform w <> "win32" -> started = [])
  /\ (forall before after,
         snd run = before ++ Run argv :: after ->
         match spawn w before argv with
         | Raise e => fst run = Raise e
         | Ok returncode =>
             if negb (returncode =? 0)%Z
             then fst run = Raise (SystemExit 1)
                  /\ exit_status (fst run) = Some 1
             else
               if path_exists w (before ++ [Run argv]) (exe_path w)
               then match file_size w (before ++ [Run argv]) (exe_path w)
                    with
                    | Ok _ => fst run = Ok tt
                    | Raise e => fst run = Raise e
                    end
               else fst run = Raise (SystemExit 1)
                    /\ exit_status (fst run) = Some 1
         end).
Proof.
  intros run argv started.
  assert (Hargv : invokes_pyinstaller (Run argv) = true) by reflexivity.
  destruct (main_builds_once w []) as (d & E1 & H).
  fold run in E1, H. cbn [app] in E1, H. fold argv in H.
  split; [|split; [|split]].
  - subst started. rewrite E1.
    destruct (existsb announces_build d); [|now left].
    destruct H as (before & after & -> & Hb & Ha & _). right.
    rewrite filter_app. cbn [filter]. now rewrite Hargv, Hb, Ha.
  - intros (Hp & Hpip & Hload & Hrm). subst started run argv.
    unfold pip_argv in Hpip. unfold main.
    cbv beta iota zeta delta [bind print emit sys observe sys_exit raise ret
       subprocess_run perform try_except import for_each os_path_exists
       os_path_join os_path_getsize shutil_rmtree].
    rewrite (proj2 (String.eqb_eq _ _) Hp). cbn [negb app].
    rewrite Hpip. cbv beta iota. cbn [Z.eqb negb andb].
    repeat (rewrite ?Hload, ?Hrm; cbv beta iota).
    destruct (path_exists w _ "build"); cbv beta iota;
      repeat (rewrite ?Hload, ?Hrm; cbv beta iota);
      (destruct (path_exists w _ "dist"); cbv beta iota;
       repeat (rewrite ?Hload, ?Hrm; cbv beta iota));
      (destruct (spawn w _ _) as [returncode | e]; cbv beta iota;
       [cbn [andb]; destruct (returncode =? 0)%Z; cbn [negb]; cbv beta iota;
        [destruct (path_exists w _ _); cbv beta iota;
         [destruct (file_size w _ _); cbv beta iota|]|]|]);
      reflexivity.
  - intro Hp. subst started run. unfold main.
    cbv beta iota zeta delta [bind print emit sys observe sys_exit raise].
    apply String.eqb_neq in Hp. rewrite Hp. reflexivity.
  - intros before after E. rewrite E1 in E.
    destruct (existsb announces_build d).
    + destruct H as (before' & after' & -> & Hb & Ha & H).
      destruct (split_unique _ _ _ _ _ _ Hargv Hb Ha E) as [-> ->].
      destruct (spawn w before argv) as [returncode | e]; [|exact H].
      destruct (negb (returncode =? 0)); [now rewrite H|].
      destruct (path_exists w (before ++ [Run argv]) (exe_path w));
        [exact H|now rewrite H].
    + exfalso. rewrite E, filter_app in H. cbn [filter] in H.
      rewrite Hargv in H. now destruct (filter invokes_pyinstaller before).
Qed.

End WithFormatting.

(** C7 as worded fails: on Linux the run ends at the platform check and
    PyInstaller is started not once but never. *)
Lemma pyinstaller_never_on_linux :
  filter invokes_pyinstaller
    (snd (main TestVocabulary.sample_repr sample_mb linux [])) = []
  /\ List.length
       (filter invokes_pyinstaller
          (snd (main TestVocabulary.sample_repr sample_mb linux [])))
     <> 1%nat.
Proof. split; [reflexivity|discriminate]. Qed.


Lemma pyinstaller_once_witness :
  filter invokes_pyinstaller
    (snd (main TestVocabulary.sample_repr sample_mb windows []))
  = [Run (pyinstaller_argv "python.exe")].
Proof.
  apply (proj1 (proj2
           (pyinstaller_once TestVocabulary.sample_repr sample_mb windows))).
  repeat split.
Defined.

(** On the sample Windows machine the build is announced and
    PyInstaller started once. *)
Example pyinstaller_once_on_windows :
  existsb announces_build
    (snd (main TestVocabulary.sample_repr sample_mb windows [])) = true
  /\ filter invokes_pyinstaller
       (snd (main TestVocabulary.sample_repr sample_mb windows []))
     = [Run (pyinstaller_argv "python.exe")]
  /\ fst (main TestVocabulary.sample_repr sample_mb windows []) = Ok tt.
Proof. repeat split. Qed.

Lemma platform_gate_witness :
  fst (main TestVocabulary.sample_repr sample_mb linux [])
    = Raise (SystemExit 1)
  /\ exit_status (fst (main TestVocabulary.sample_repr sample_mb linux []))
     = Some 1
  /\ emitted (main TestVocabulary.sample_repr sample_mb) linux []
     = heading ++ [not_windows]
  /\ filter changes_state
       (emitted (main TestVocabulary.sample_repr sample_mb) linux []) = [].
Proof.
  apply (platform_gate TestVocabulary.sample_repr sample_mb linux []).
  discriminate.
Defined.

Lemma pip_failure_stops_witness :
  main TestVocabulary.sample_repr sample_mb offline []
  = (Raise (Exception "CalledProcessError"
              ("Command '"
               ++ list_repr TestVocabulary.sample_repr (pip_argv "python.exe")
               ++ "' returned non-zero exit status " ++ decimal 1 ++ ".")),
     heading ++ installing offline ++ [Run (pip_argv "python.exe")])
  /\ exit_status (fst (main TestVocabulary.sample_repr sample_mb offline []))
     = Some 1.
Proof.
  apply (pip_failure_stops TestVocabulary.sample_repr sample_mb offline []
           eq_refl).
  discriminate.
Defined.

Lemma pywin32_failure_stops_witness :
  main TestVocabulary.sample_repr sample_mb bare []
  = (Raise (SystemExit 1),
     (heading ++ installing bare
        ++ [Run (pip_argv "python.exe"); verifying]
        ++ [Import "win32com.client"])
     ++ pywin32_missing (ImportError "No module named 'win32com'"))
  /\ exit_status (fst (main TestVocabulary.sample_repr sample_mb bare []))
     = Some 1.
Proof.
  exact (pywin32_failure_stops TestVocabulary.sample_repr sample_mb bare []
           eq_refl eq_refl).
Defined.

Lemma success_is_earned_witness :
  exit_status (fst (main TestVocabulary.sample_repr sample_mb windows []))
    = Some 0
  /\ exists before after,
       snd (main TestVocabulary.sample_repr sample_mb windows [])
         = before ++ Run (pyinstaller_argv "python.exe") :: after
       /\ spawn windows before (pyinstaller_argv "python.exe") = Ok 0
       /\ path_exists windows
            (before ++ [Run (pyinstaller_argv "python.exe")])
            (exe_path windows) = true
       /\ In (Print "BUILD SUCCESSFUL!") after.
Proof.
  apply (success_is_earned TestVocabulary.sample_repr sample_mb windows).
  reflexivity.
Defined.

Lemma removes_only_what_exists_witness :
  path_exists cluttered
    (firstn 11 (snd (main TestVocabulary.sample_repr sample_mb cluttered [])))
    "build" = true.
Proof.
  apply (removes_only_what_exists TestVocabulary.sample_repr sample_mb
           cluttered _ "build"
           (skipn 12
              (snd (main TestVocabulary.sample_repr sample_mb cluttered [])))).
  vm_compute. reflexivity.
Defined.

Lemma build_succeeds_witness :
  fst (main TestVocabulary.sample_repr sample_mb cluttered []) = Ok tt
  /\ exit_status (fst (main TestVocabulary.sample_repr sample_mb cluttered []))
     = Some 0
  /\ In (Print "BUILD SUCCESSFUL!")
        (emitted (main TestVocabulary.sample_repr sample_mb) cluttered []).
Proof.
  apply (build_succeeds TestVocabulary.sample_repr sample_mb cluttered []).
  repeat split. intro t. now exists 20971520%Z.
Defined.

End BuildTheory.
